(** * Audio capture and voice-activity segmentation (core/audio_input.py)

    A shallow embedding of [VoiceActivityDetector] and [AudioInput].

    Modelling conventions.
    - Python [float] values are rationals ([Q]).  Where the value of a
      float expression matters (the update of the energy floor, the frame
      limit derived from a duration) each operation is rounded to the
      nearest double by [fl]; comparisons and the other quotients are
      exact.  A float that may be [nan] or [inf] (a numpy energy) is a
      [pyfloat].
    - Exceptions are explicit: a computation is a state transformer that
      ends in [Ret], in [Raise], or in [Starved] when the finite input feed
      handed to a polling loop is used up while the loop is still running;
      nothing runs after a [Starved] computation, not even a [finally]
      block.
    - External libraries (numpy's square root, the float32 pipeline, the
      WebRTC detector, PortAudio, the wave module) are parameters of the
      development.
    - The clock and the device are a feed: one entry per turn of a capture
      loop. In push mode the device callback runs on another thread; the
      buffer lock orders it against the locked part of the polling loop, so
      a run is a sequence of polls, each preceded by the callbacks that
      completed since the poll before. *)

From Stdlib Require Import ZArith QArith Qround Qabs Bool String Strings.Byte List Lia Lqa.
Import ListNotations.

Local Open Scope Z_scope.

(** ** Python values *)

Definition bytes := list byte.

Inductive exn : Type :=
| ValueError
| ZeroDivisionError
| AttributeError
| IOError
| VadError
| DeviceError
| WaveError.

(** The result of a call that returns or raises. *)
Inductive outcome (A : Type) : Type :=
| Done (a : A)
| Thrown (e : exn).

Arguments Done {A} a.
Arguments Thrown {A} e.

Inductive res (A : Type) : Type :=
| Ret (a : A)
| Raise (e : exn)
| Starved.

Arguments Ret {A} a.
Arguments Raise {A} e.
Arguments Starved {A}.

(** A numpy/Python float that may be non-finite. Energies are never
    negative infinity. *)
Inductive pyfloat : Type :=
| Fin (q : Q)
| PInf
| NaN.

(** ** State and exception monad *)

Definition M (S A : Type) : Type := S -> res A * S.

Definition ret {S A} (a : A) : M S A := fun s => (Ret a, s).

Definition bind {S A B} (c : M S A) (k : A -> M S B) : M S B :=
  fun s =>
    match c s with
    | (Ret a, s') => k a s'
    | (Raise e, s') => (Raise e, s')
    | (Starved, s') => (Starved, s')
    end.

Definition raise {S A} (e : exn) : M S A := fun s => (Raise e, s).

Definition starve {S A} : M S A := fun s => (Starved, s).

Definition get {S} : M S S := fun s => (Ret s, s).

Definition put {S} (s : S) : M S unit := fun _ => (Ret tt, s).

Definition modify {S} (f : S -> S) : M S unit := fun s => (Ret tt, f s).

(** [try: c except Exception: h].  Mutations made by [c] before the
    exception stay. *)
Definition try_catch {S A} (c : M S A) (h : exn -> M S A) : M S A :=
  fun s =>
    match c s with
    | (Raise e, s') => h e s'
    | r => r
    end.

(** [try: c finally: f].  The [finally] block runs when [c] has returned
    or raised; while [c] is still running ([Starved]) it has not run. *)
Definition try_finally {S A} (c : M S A) (f : M S unit) : M S A :=
  fun s =>
    match c s with
    | (Starved, s') => (Starved, s')
    | (r, s') =>
        match f s' with
        | (Ret _, s'') => (r, s'')
        | (Raise e, s'') => (Raise e, s'')
        | (Starved, s'') => (Starved, s'')
        end
    end.

(** Run a computation on a component of the state. *)
Definition zoom {S T A} (proj : T -> S) (upd : S -> T -> T) (c : M S A) : M T A :=
  fun t => match c (proj t) with (r, s') => (r, upd s' t) end.

Definition call {S A} (r : outcome A) : M S A :=
  fun s => match r with Done a => (Ret a, s) | Thrown e => (Raise e, s) end.

Declare Scope monad_scope.
Delimit Scope monad_scope with monad.
Notation "x <- c ;; k" := (bind c (fun x => k))
  (at level 61, c at next level, right associativity) : monad_scope.
Notation "c ;;; k" := (bind c (fun _ => k))
  (at level 61, right associativity) : monad_scope.

(** ** Python arithmetic *)

(** [a > b] and [a < b] on floats. *)
Definition Qgtb (a b : Q) : bool := negb (Qle_bool a b).
Definition Qltb (a b : Q) : bool := negb (Qle_bool b a).

(** [int(x)]: truncation toward zero. *)
Definition py_int (q : Q) : Z := Z.quot (Qnum q) (Zpos (Qden q)).

(** True division [a / b]. *)
Definition py_div (a b : Q) : outcome Q :=
  if Qeq_bool b 0 then Thrown ZeroDivisionError else Done (a / b)%Q.

(** [l[i:]] for a possibly negative start index. *)
Definition py_slice_from {A} (i : Z) (l : list A) : list A :=
  let n := Z.of_nat (length l) in
  let start := if i <? 0 then Z.max 0 (i + n) else Z.min i n in
  skipn (Z.to_nat start) l.

(** [b''.join(frames)]. *)
Definition join (frames : list bytes) : bytes := concat frames.

(** [energy > threshold], false on [nan]. *)
Definition pf_gt (e : pyfloat) (t : Q) : bool :=
  match e with
  | Fin q => Qgtb q t
  | PInf => true
  | NaN => false
  end.

(** [energy < threshold], false on [nan]. *)
Definition pf_lt (e : pyfloat) (t : Q) : bool :=
  match e with
  | Fin q => Qltb q t
  | PInf => false
  | NaN => false
  end.

(** ** Double-precision rounding *)

(** [2^k] for an integer [k] of either sign. *)
Definition pow2 (k : Z) : Q :=
  if 0 <=? k then inject_Z (2 ^ k) else 1 / inject_Z (2 ^ (- k)).

(** The binary exponent of a non-zero rational: the [e] with
    [2^e <= |q| < 2^(e+1)]. *)
Definition exponent (q : Q) : Z :=
  let e := Z.log2 (Z.abs (Qnum q)) - Z.log2 (Zpos (Qden q)) in
  if Qle_bool (pow2 e) (Qabs q) then e else e - 1.

(** Rounding to the nearest integer, ties to the even one. *)
Definition round_half_even (q : Q) : Z :=
  let f := Qfloor q in
  match Qcompare (q - inject_Z f) (1 # 2) with
  | Lt => f
  | Gt => f + 1
  | Eq => if Z.even f then f else f + 1
  end.

(** The double nearest to a real number: 53 significant bits, ties to
    even, which is what a float literal denotes and what [+], [*] and [/]
    on floats return.  The exponent range is not bounded: overflow and
    underflow are not modelled. *)
Definition fl (q : Q) : Q :=
  if Qeq_bool q 0 then 0
  else
    let ulp := (pow2 (exponent q) * (1 # 4503599627370496))%Q in
    (inject_Z (round_half_even (q / ulp)) * ulp)%Q.

Arguments fl : simpl never.

(** The relative error of one rounding, [2^-53]. *)
Definition half_ulp : Q := 1 # 9007199254740992.


(** ** numpy on int16 frames *)

Definition byte_Z (b : byte) : Z := Z.of_N (Byte.to_N b).

(** Two's-complement reading of a 16-bit word. *)
Definition wrap16 (x : Z) : Z :=
  let m := x mod 65536 in if m <? 32768 then m else m - 65536.

(** Little-endian words of [width] bytes, as unsigned integers. The fuel is
    the number of words. *)
Fixpoint le_words (width : nat) (n : nat) (bs : bytes) : list Z :=
  match n with
  | O => []
  | S n' =>
      fold_right (fun b acc => byte_Z b + 256 * acc) 0 (firstn width bs)
        :: le_words width n' (skipn width bs)
  end.

Inductive dtype : Type := Int16 | Float32.

Definition itemsize (d : dtype) : nat :=
  match d with Int16 => 2%nat | Float32 => 4%nat end.

(** [np.frombuffer(frame, dtype=fmt)]: raises [ValueError] when the buffer
    size is not a multiple of the element size.  An int16 array holds the
    signed samples, a float32 array the raw 32-bit patterns. *)
Definition frombuffer (d : dtype) (bs : bytes) : outcome (list Z) :=
  let w := itemsize d in
  if Nat.eqb (Nat.modulo (length bs) w) 0 then
    let ws := le_words w (Nat.div (length bs) w) bs in
    Done (match d with Int16 => map wrap16 ws | Float32 => ws end)
  else Thrown ValueError.

(** [np.square] on an int16 array stays in int16 and wraps. *)
Definition square_i16 (xs : list Z) : list Z := map (fun x => wrap16 (x * x)) xs.

(** [np.mean] of an integer array: the sum, exact in a double, divided
    by the length; [nan] on an empty array. *)
Definition mean (xs : list Z) : pyfloat :=
  match xs with
  | [] => NaN
  | _ => Fin (fl (inject_Z (fold_right Z.add 0 xs) / inject_Z (Z.of_nat (length xs))))
  end.

(** ** Configuration *)

Record AudioConfig : Type := mkAudioConfig {
  sample_rate : Z;
  channels : Z;
  format : string;
  chunk_size : Z;
  silence_threshold : Q;
  dynamic_silence : bool;
  min_speech_duration : Q;
  speech_pad_start : Q;
  speech_pad_end : Q;
  device_index : option Z;
  timeout : Q;
  vad_enabled : bool;
  vad_mode : Z;
  vad_frame_ms : Z
}.

(** The dataclass defaults. *)
Definition default_config : AudioConfig :=
  {| sample_rate := 16000; channels := 1; format := "int16"; chunk_size := 1024;
     silence_threshold := 300; dynamic_silence := true;
     min_speech_duration := 0.05; speech_pad_start := 0.1; speech_pad_end := 0.2;
     device_index := None; timeout := 2;
     vad_enabled := true; vad_mode := 1; vad_frame_ms := 30 |}.

(** The sample type [_is_speech_energy] decodes with: [np.int16] unless the
    format is ['float32']. *)
Definition dtype_of (cfg : AudioConfig) : dtype :=
  if String.eqb (format cfg) "float32" then Float32 else Int16.

(** A reference square root for the examples: exact on perfect squares of
    integers, the integer part of the root otherwise. *)
Definition sqrt_floor (q : Q) : Q := inject_Z (Z.sqrt (Qnum q / Zpos (Qden q))).

(** ** External libraries *)

(** Calls into PortAudio, in the order they are made. Handles are numbers. *)
Inductive dev_call : Type :=
| PyAudioNew
| PaOpen (pa : nat) (callback : bool)
| StreamStart (st : nat)
| StreamStop (st : nat)
| StreamClose (st : nat)
| PaTerminate (pa : nat).

(** The [with wave.open(...)] block of [save_audio]: the open fails, a
    later call fails after the file was created, or the file is written. *)
Inductive wave_result : Type := OpenFails | BodyFails | Written.

Record Externals : Type := mkExternals {
  (** numpy's [sqrt] on a finite non-negative float *)
  fsqrt : Q -> Q;
  (** numpy's [sqrt(mean(square(a)))] on a float32 array, given by its raw
      words *)
  rms_f32 : list Z -> pyfloat;
  (** the WebRTC detector: its internal state, the state
      [webrtcvad.Vad(mode)] builds, and [Vad.is_speech(frame, sample_rate)] *)
  vad_st : Type;
  webrtc_new : Z -> vad_st;
  webrtc_is_speech : vad_st -> bytes -> Z -> outcome bool * vad_st;
  (** whether a PortAudio call raises, given the calls made before it *)
  dev_raises : list dev_call -> dev_call -> bool;
  (** the wave module writing [data] to a path with the given channel
      count and frame rate *)
  wave_outcome : string -> Z -> Z -> bytes -> wave_result
}.

Section AudioInputModel.

Local Open Scope monad_scope.

Variable ext : Externals.

(** ** VoiceActivityDetector *)

Record VoiceActivityDetector : Type := mkVAD {
  v_config : AudioConfig;
  _energy_threshold : Q;
  _dynamic_threshold : bool;
  _vad : option (vad_st ext)
}.

(** [VoiceActivityDetector.__init__]; [have_webrtc] tells whether
    [import webrtcvad] succeeds. *)
Definition VoiceActivityDetector_init (have_webrtc : bool) (config : AudioConfig)
  : VoiceActivityDetector :=
  {| v_config := config;
     _energy_threshold := silence_threshold config;
     _dynamic_threshold := dynamic_silence config;
     _vad := if have_webrtc then Some (webrtc_new ext (vad_mode config)) else None |}.

Definition set_energy_threshold (t : Q) (v : VoiceActivityDetector) : VoiceActivityDetector :=
  {| v_config := v_config v; _energy_threshold := t;
     _dynamic_threshold := _dynamic_threshold v; _vad := _vad v |}.

Definition set_vad (d : option (vad_st ext)) (v : VoiceActivityDetector) : VoiceActivityDetector :=
  {| v_config := v_config v; _energy_threshold := _energy_threshold v;
     _dynamic_threshold := _dynamic_threshold v; _vad := d |}.

(** [np.sqrt] of a mean: [nan] on [nan] and on a negative mean. *)
Definition np_sqrt (m : pyfloat) : pyfloat :=
  match m with
  | Fin q => if Qltb q 0 then NaN else Fin (fsqrt ext q)
  | PInf => PInf
  | NaN => NaN
  end.

(** [np.sqrt(np.mean(np.square(audio_array)))]; the mean of an empty
    array is [nan] whatever the sample type. *)
Definition rms (d : dtype) (audio_array : list Z) : pyfloat :=
  match d with
  | Int16 => np_sqrt (mean (square_i16 audio_array))
  | Float32 =>
      match audio_array with
      | [] => NaN
      | _ => rms_f32 ext audio_array
      end
  end.

Definition _update_energy_threshold (current_energy : pyfloat) : M VoiceActivityDetector unit :=
  (self <- get ;;
   if pf_lt current_energy (_energy_threshold self) then
     match current_energy with
     | Fin e =>
         modify (set_energy_threshold
                   (fl (fl (fl 0.95 * _energy_threshold self)
                        + fl (fl 0.05 * fl (1.5 * e))))%Q)
     | _ => ret tt
     end
   else ret tt)%monad.

Definition _is_speech_energy (audio_frame : bytes) : M VoiceActivityDetector bool :=
  (self <- get ;;
   let fmt := dtype_of (v_config self) in
   try_catch
     (audio_array <- call (frombuffer fmt audio_frame) ;;
      let energy := rms fmt audio_array in
      (if _dynamic_threshold self then _update_energy_threshold energy else ret tt) ;;;
      self' <- get ;;
      ret (pf_gt energy (_energy_threshold self')))
     (fun _ => ret false))%monad.

Definition is_speech (audio_frame : bytes) (sample_rate_arg : option Z)
  : M VoiceActivityDetector bool :=
  (self <- get ;;
   let sample_rate :=
     match sample_rate_arg with
     | None => sample_rate (v_config self)
     | Some r => r
     end in
   match _vad self with
   | Some d =>
       try_catch
         (fun s =>
            match webrtc_is_speech ext d audio_frame sample_rate with
            | (Done b, d') => (Ret b, set_vad (Some d') s)
            | (Thrown e, d') => (Raise e, set_vad (Some d') s)
            end)
         (fun _ => _is_speech_energy audio_frame)
   | None => _is_speech_energy audio_frame
   end)%monad.

(** ** PortAudio and the file system *)

(** What is found at a path after [save_audio]. *)
Inductive file : Type :=
| WavFile (nchannels sampwidth framerate : Z) (frames : bytes)
| Truncated.

Record World : Type := mkWorld {
  calls : list dev_call;
  files : list (string * file)
}.

Definition dev (c : dev_call) : M World unit :=
  fun w =>
    let w' := {| calls := calls w ++ [c]; files := files w |} in
    if dev_raises ext (calls w) c then (Raise DeviceError, w') else (Ret tt, w').

(** A handle no earlier call returned. *)
Definition fresh : M World nat := fun w => (Ret (length (calls w)), w).

(** ** AudioInput *)

(** The attribute [pa_instance]: not set by [__init__], so it may be
    missing; [stop_stream] sets it to [None]. *)
Inductive pa_attr : Type :=
| Absent
| IsNone
| Live (pa : nat).

Record AudioInput : Type := mkAudioInput {
  config : AudioConfig;
  vad : VoiceActivityDetector;
  is_recording : bool;
  stop_requested : bool;
  stream : option nat;
  pyaudio : bool;
  pa_instance : pa_attr;
  buffer : list bytes
}.

(** [AudioInput.__init__]; [have_pyaudio] tells whether [import pyaudio]
    succeeds. *)
Definition AudioInput_init (have_webrtc have_pyaudio : bool) (cfg : AudioConfig)
  : AudioInput :=
  {| config := cfg;
     vad := VoiceActivityDetector_init have_webrtc cfg;
     is_recording := false;
     stop_requested := false;
     stream := None;
     pyaudio := have_pyaudio;
     pa_instance := Absent;
     buffer := [] |}.

Definition set_vad_of (v : VoiceActivityDetector) (a : AudioInput) : AudioInput :=
  {| config := config a; vad := v; is_recording := is_recording a;
     stop_requested := stop_requested a; stream := stream a; pyaudio := pyaudio a;
     pa_instance := pa_instance a; buffer := buffer a |}.

Definition set_is_recording (b : bool) (a : AudioInput) : AudioInput :=
  {| config := config a; vad := vad a; is_recording := b;
     stop_requested := stop_requested a; stream := stream a; pyaudio := pyaudio a;
     pa_instance := pa_instance a; buffer := buffer a |}.

Definition set_stop_requested (b : bool) (a : AudioInput) : AudioInput :=
  {| config := config a; vad := vad a; is_recording := is_recording a;
     stop_requested := b; stream := stream a; pyaudio := pyaudio a;
     pa_instance := pa_instance a; buffer := buffer a |}.

Definition set_stream (s : option nat) (a : AudioInput) : AudioInput :=
  {| config := config a; vad := vad a; is_recording := is_recording a;
     stop_requested := stop_requested a; stream := s; pyaudio := pyaudio a;
     pa_instance := pa_instance a; buffer := buffer a |}.

Definition set_pa_instance (p : pa_attr) (a : AudioInput) : AudioInput :=
  {| config := config a; vad := vad a; is_recording := is_recording a;
     stop_requested := stop_requested a; stream := stream a; pyaudio := pyaudio a;
     pa_instance := p; buffer := buffer a |}.

Definition set_buffer (b : list bytes) (a : AudioInput) : AudioInput :=
  {| config := config a; vad := vad a; is_recording := is_recording a;
     stop_requested := stop_requested a; stream := stream a; pyaudio := pyaudio a;
     pa_instance := pa_instance a; buffer := b |}.

(** A method runs on the object and the world around it. *)
Definition Sys : Type := (AudioInput * World)%type.

Definition on_self {A} (c : M AudioInput A) : M Sys A :=
  zoom fst (fun a (t : Sys) => (a, snd t)) c.

Definition on_world {A} (c : M World A) : M Sys A :=
  zoom snd (fun w (t : Sys) => (fst t, w)) c.

Definition on_vad {A} (c : M VoiceActivityDetector A) : M AudioInput A :=
  zoom vad set_vad_of c.

Definition stop_stream : M Sys unit :=
  (on_self (modify (set_stop_requested true)) ;;;
   on_self (modify (set_is_recording false)) ;;;
   self <- on_self get ;;
   match stream self with
   | Some st =>
       try_finally
         (try_catch
            (on_world (dev (StreamStop st)) ;;;
             on_world (dev (StreamClose st)))
            (fun _ => ret tt))
         (on_self (modify (set_stream None)))
   | None => ret tt
   end ;;;
   self <- on_self get ;;
   match pa_instance self with
   | Live pa =>
       try_finally
         (try_catch (on_world (dev (PaTerminate pa))) (fun _ => ret tt))
         (on_self (modify (set_pa_instance IsNone)))
   | _ => ret tt
   end)%monad.

Definition start_stream : M Sys bool :=
  (self <- on_self get ;;
   if negb (pyaudio self) then ret false
   else
     match stream self with
     | Some _ => stop_stream
     | None => ret tt
     end ;;;
     try_catch
       (pa <- on_world fresh ;;
        on_world (dev PyAudioNew) ;;;
        on_self (modify (set_pa_instance (Live pa))) ;;;
        st <- on_world fresh ;;
        on_world (dev (PaOpen pa (vad_enabled (config self)))) ;;;
        on_self (modify (set_stream (Some st))) ;;;
        on_self (modify (set_is_recording true)) ;;;
        on_self (modify (set_stop_requested false)) ;;;
        on_world (dev (StreamStart st)) ;;;
        ret true)
       (fun _ =>
          self' <- on_self get ;;
          match pa_instance self' with
          | Absent => ret tt
          | IsNone => raise AttributeError
          | Live pa' => on_world (dev (PaTerminate pa'))
          end ;;;
          on_self (modify (set_stream None)) ;;;
          ret false))%monad.

(** ** The device feed *)

(** One turn of the pull loop: the clock reading at the timeout check and
    the result [stream.read] gives if it is called. *)
Record pull_tick : Type := mkPull {
  pull_now : Q;
  pull_read : outcome bytes
}.

(** One turn of the polling loop: the frames the device callback was
    handed since the previous turn, and the clock reading at the timeout
    check. *)
Record push_tick : Type := mkPush {
  push_arrivals : list bytes;
  push_now : Q
}.

Record Feed : Type := mkFeed {
  feed_start : Q;
  feed_pull : list pull_tick;
  feed_push : list push_tick
}.

(** The flag a stream callback returns. *)
Inductive pa_flag : Type := paContinue | paComplete.

(** [max_frames and len(l) >= max_frames]. *)
Definition at_frame_limit {A} (max_frames : option Z) (l : list A) : bool :=
  match max_frames with
  | None => false
  | Some m => negb (m =? 0) && (m <=? Z.of_nat (length l))
  end.

(** ** Push mode *)

Definition _audio_callback (in_data : bytes) : M AudioInput pa_flag :=
  (self <- get ;;
   if stop_requested self then ret paComplete
   else
     sp <- on_vad (is_speech in_data None) ;;
     self' <- get ;;
     (if sp || is_recording self'
      then modify (set_buffer (buffer self' ++ [in_data]))
      else ret tt) ;;;
     ret paContinue)%monad.

Fixpoint deliver (arrivals : list bytes) : M AudioInput unit :=
  match arrivals with
  | [] => ret tt
  | f :: rest => (_audio_callback f ;;; deliver rest)%monad
  end.

(** [self.buffer[-1]]; only read when the buffer is not empty. *)
Definition last_frame (b : list bytes) : bytes := last b [].

Fixpoint vad_loop (max_frames : option Z) (start_time : Q)
    (speech_detected : bool) (silence_frames : Z) (ticks : list push_tick)
  : M AudioInput unit :=
  match ticks with
  | [] => starve
  | tk :: rest =>
      (deliver (push_arrivals tk) ;;;
       self <- get ;;
       let cfg := config self in
       if Qgtb (push_now tk - start_time) (timeout cfg) then ret tt
       else if at_frame_limit max_frames (buffer self) then ret tt
       else
         speech_detected' <-
           (if negb speech_detected && (0 <? Z.of_nat (length (buffer self)))
            then sp <- on_vad (is_speech (last_frame (buffer self)) None) ;;
                 ret (if sp then true else speech_detected)
            else ret speech_detected) ;;
         if speech_detected' then
           silence_frames' <-
             (if 0 <? Z.of_nat (length (buffer self))
              then sp <- on_vad (is_speech (last_frame (buffer self)) None) ;;
                   ret (if negb sp then silence_frames + 1 else 0)
              else ret 0) ;;
           silence_secs <-
             call (py_div (inject_Z (silence_frames' * chunk_size cfg))
                          (inject_Z (sample_rate cfg))) ;;
           if Qgtb silence_secs (speech_pad_end cfg) then ret tt
           else vad_loop max_frames start_time speech_detected' silence_frames' rest
         else vad_loop max_frames start_time speech_detected' silence_frames rest)%monad
  end.

Definition _capture_with_vad (max_frames : option Z) (wait_for_speech : bool)
    (start_time : Q) (ticks : list push_tick) : M AudioInput (option bytes) :=
  (vad_loop max_frames start_time (negb wait_for_speech) 0 ticks ;;;
   self <- get ;;
   match buffer self with
   | [] => ret None
   | _ => ret (Some (join (buffer self)))
   end)%monad.

(** ** Pull mode *)

Record manual_locals : Type := mkLocals {
  frames : list bytes;
  speech_detected : bool;
  silence_frames : Z
}.

Definition Loop : Type := (VoiceActivityDetector * manual_locals)%type.

Definition locals : M Loop manual_locals := fun s => (Ret (snd s), s).

Definition set_locals (l : manual_locals) : M Loop unit :=
  fun s => (Ret tt, (fst s, l)).

Definition loop_vad {A} (c : M VoiceActivityDetector A) : M Loop A :=
  zoom fst (fun v (t : Loop) => (v, snd t)) c.

(** The [try] block of one turn of the loop; the result tells whether the
    loop is left. An exception leaves it too. *)
Definition manual_body (cfg : AudioConfig) (max_frames : option Z)
    (rd : outcome bytes) : M Loop bool :=
  try_catch
    (data <- call rd ;;
     sp <- loop_vad (is_speech data None) ;;
     l <- locals ;;
     (if negb (speech_detected l) then
        if sp then
          set_locals (mkLocals (frames l) true (silence_frames l)) ;;;
          n <- call (py_div (speech_pad_start cfg * inject_Z (sample_rate cfg))%Q
                            (inject_Z (chunk_size cfg))) ;;
          set_locals (mkLocals (frames l ++ py_slice_from (- py_int n) (frames l))
                               true (silence_frames l))
        else ret tt
      else ret tt) ;;;
     l1 <- locals ;;
     if speech_detected l1 then
       let fs := frames l1 ++ [data] in
       let sil := if negb sp then silence_frames l1 + 1 else 0 in
       set_locals (mkLocals fs true sil) ;;;
       silence_secs <-
         call (py_div (inject_Z (sil * chunk_size cfg)) (inject_Z (sample_rate cfg))) ;;
       if Qgtb silence_secs (speech_pad_end cfg) then ret true
       else ret (at_frame_limit max_frames fs)
     else ret (at_frame_limit max_frames (frames l1)))
    (fun _ => ret true).

Fixpoint manual_loop (cfg : AudioConfig) (max_frames : option Z) (start_time : Q)
    (ticks : list pull_tick) : M Loop unit :=
  match ticks with
  | [] => starve
  | tk :: rest =>
      if Qgtb (pull_now tk - start_time) (timeout cfg) then ret tt
      else
        (leave <- manual_body cfg max_frames (pull_read tk) ;;
         if leave then ret tt
         else manual_loop cfg max_frames start_time rest)%monad
  end.

Definition _capture_manual (max_frames : option Z) (wait_for_speech : bool)
    (start_time : Q) (ticks : list pull_tick) : M AudioInput (option bytes) :=
  fun self =>
    match manual_loop (config self) max_frames start_time ticks
            (vad self, mkLocals [] (negb wait_for_speech) 0) with
    | (Ret _, (v, l)) =>
        (Ret (match frames l with
              | [] => None
              | _ => Some (join (frames l))
              end), set_vad_of v self)
    | (Raise e, (v, _)) => (Raise e, set_vad_of v self)
    | (Starved, (v, _)) => (Starved, set_vad_of v self)
    end.

(** ** capture_audio and save_audio *)

Definition capture_audio (duration : option Q) (wait_for_speech : bool)
    (feed : Feed) : M Sys (option bytes) :=
  (self <- on_self get ;;
   started <- match stream self with
              | None => start_stream
              | Some _ => ret true
              end ;;
   if negb started then ret None
   else
     on_self (modify (set_buffer [])) ;;;
     let cfg := config self in
     max_frames <-
       match duration with
       | None => ret None
       | Some d =>
           if Qeq_bool d 0 then ret None
           else
             let bytes_per_second := sample_rate cfg * channels cfg * 2 in
             q <- call (py_div (fl (d * inject_Z bytes_per_second))%Q
                               (inject_Z (chunk_size cfg))) ;;
             ret (Some (py_int (fl q)))
       end ;;
     if vad_enabled cfg
     then on_self (_capture_with_vad max_frames wait_for_speech
                     (feed_start feed) (feed_push feed))
     else on_self (_capture_manual max_frames wait_for_speech
                     (feed_start feed) (feed_pull feed)))%monad.

Definition wave_write (filename : string) (nchannels framerate : Z) (data : bytes)
  : M World unit :=
  fun w =>
    match wave_outcome ext filename nchannels framerate data with
    | OpenFails => (Raise IOError, w)
    | BodyFails =>
        (Raise WaveError,
         {| calls := calls w; files := (filename, Truncated) :: files w |})
    | Written =>
        (Ret tt,
         {| calls := calls w;
            files := (filename, WavFile nchannels 2 framerate data) :: files w |})
    end.

(** [audio_data] is [None] or a byte string. *)
Definition save_audio (audio_data : option bytes) (filename : string) : M Sys bool :=
  match audio_data with
  | None => ret false
  | Some [] => ret false
  | Some data =>
      (self <- on_self get ;;
       try_catch
         (on_world (wave_write filename (channels (config self))
                      (sample_rate (config self)) data) ;;;
          ret true)
         (fun _ => ret false))%monad
  end.

End AudioInputModel.

Arguments v_config {ext} v.
Arguments _energy_threshold {ext} v.
Arguments _dynamic_threshold {ext} v.
Arguments _vad {ext} v.
Arguments set_energy_threshold {ext} t v.
Arguments set_vad {ext} d v.
Arguments config {ext} a.
Arguments vad {ext} a.
Arguments is_recording {ext} a.
Arguments stop_requested {ext} a.
Arguments stream {ext} a.
Arguments pyaudio {ext} a.
Arguments pa_instance {ext} a.
Arguments buffer {ext} a.
Arguments set_vad_of {ext} v a.
Arguments set_is_recording {ext} b a.
Arguments set_stop_requested {ext} b a.
Arguments set_stream {ext} s a.
Arguments set_pa_instance {ext} p a.
Arguments set_buffer {ext} b a.

(** ** Definitions used to state the properties *)

(** A frame the energy strategy cannot decode into samples: its length is
    not a multiple of the sample width. *)
Definition malformed (cfg : AudioConfig) (frame : bytes) : Prop :=
  Nat.modulo (length frame) (itemsize (dtype_of cfg)) <> 0%nat.

(** The floor after an update on the energy [e]: what Python computes for
    [0.95 * floor + 0.05 * (1.5 * e)], every operation rounded. *)
Definition updated_floor (t e : Q) : Q :=
  fl (fl (fl 0.95 * t) + fl (fl 0.05 * fl (1.5 * e))).


(** numpy returns no negative energy. *)
Definition numpy_nonneg (ext : Externals) : Prop :=
  (forall q, 0 <= fsqrt ext q)%Q /\
  (forall ws q, rms_f32 ext ws = Fin q -> 0 <= q)%Q.

(** The verdict on a frame in a detector state, and the state after it. *)
Definition verdict (ext : Externals) (v : VoiceActivityDetector ext) (f : bytes) : bool :=
  match fst (is_speech ext f None v) with
  | Ret b => b
  | _ => false
  end.

Definition vad_after (ext : Externals) (v : VoiceActivityDetector ext) (f : bytes)
  : VoiceActivityDetector ext :=
  snd (is_speech ext f None v).

(** The verdicts on a sequence of frames classified in arrival order. *)
Fixpoint labels (ext : Externals) (v : VoiceActivityDetector ext) (fs : list bytes)
  : list bool :=
  match fs with
  | [] => []
  | f :: rest => verdict ext v f :: labels ext (vad_after ext v f) rest
  end.

(** The detector states reachable from the initial one by classifying
    frames. *)
Inductive vad_reachable (ext : Externals) (have_webrtc : bool) (cfg : AudioConfig)
  : VoiceActivityDetector ext -> Prop :=
| reach_init : vad_reachable ext have_webrtc cfg (VoiceActivityDetector_init ext have_webrtc cfg)
| reach_step v frame sr :
    vad_reachable ext have_webrtc cfg v ->
    vad_reachable ext have_webrtc cfg (snd (is_speech ext frame sr v)).



(** The frames the reads of a pull feed deliver. *)
Definition reads (ticks : list pull_tick) : list bytes :=
  flat_map (fun tk => match pull_read tk with Done d => [d] | Thrown _ => [] end) ticks.

(** Elements [k], ..., [n-1] of a list. *)
Definition segment {A} (k n : nat) (l : list A) : list A := skipn k (firstn n l).

(** Seconds of audio in one frame. *)
Definition frame_duration (cfg : AudioConfig) : Q :=
  inject_Z (chunk_size cfg) / inject_Z (sample_rate cfg).

(** How often a call occurs in a list of device calls. *)
Definition dev_call_eqb (a b : dev_call) : bool :=
  match a, b with
  | PyAudioNew, PyAudioNew => true
  | PaOpen p c, PaOpen p' c' => Nat.eqb p p' && Bool.eqb c c'
  | StreamStart s, StreamStart s' => Nat.eqb s s'
  | StreamStop s, StreamStop s' => Nat.eqb s s'
  | StreamClose s, StreamClose s' => Nat.eqb s s'
  | PaTerminate p, PaTerminate p' => Nat.eqb p p'
  | _, _ => false
  end.

Definition occurrences (c : dev_call) (l : list dev_call) : nat :=
  length (filter (dev_call_eqb c) l).

(** The sample rate [is_speech] hands to the detector. *)
Definition rate_for {ext : Externals} (v : VoiceActivityDetector ext) (sr : option Z) : Z :=
  match sr with
  | None => sample_rate (v_config v)
  | Some r => r
  end.

(** The frame is left to the energy strategy: no detector was loaded, or
    its call on this frame raises. *)
Definition detector_declines {ext : Externals} (v : VoiceActivityDetector ext)
    (frame : bytes) (sr : option Z) : Prop :=
  match _vad v with
  | None => True
  | Some d => exists e, fst (webrtc_is_speech ext d frame (rate_for v sr)) = Thrown e
  end.

(** The detector state after classifying frames in arrival order. *)
Definition vad_run (ext : Externals) (v : VoiceActivityDetector ext) (fs : list bytes)
  : VoiceActivityDetector ext :=
  fold_left (vad_after ext) fs v.



(** A turn of the pull loop that starts before the timeout and whose read
    delivers a frame. *)
Definition served (cfg : AudioConfig) (start_time : Q) (tk : pull_tick) : Prop :=
  (pull_now tk - start_time <= timeout cfg)%Q /\ exists d, pull_read tk = Done d.

(** ** Example data *)

(** A frame of [n] equal 16-bit samples. *)
Definition tone (lo hi : byte) (n : nat) : bytes := concat (repeat [lo; hi] n).

(** Frames of 1024 samples: three quiet ones (amplitudes 0, 1, 2) and a
    loud one (amplitude 100). *)
Definition quiet0 : bytes := tone x00 x00 1024.
Definition quiet1 : bytes := tone x01 x00 1024.
Definition quiet2 : bytes := tone x02 x00 1024.
Definition loud : bytes := tone x64 x00 1024.

(** A machine without webrtcvad on which PortAudio and the wave module
    work. *)
Definition ext0 : Externals :=
  {| fsqrt := sqrt_floor;
     rms_f32 := fun _ => NaN;
     vad_st := unit;
     webrtc_new := fun _ => tt;
     webrtc_is_speech := fun s _ _ => (Thrown VadError, s);
     dev_raises := fun _ _ => false;
     wave_outcome := fun _ _ _ _ => Written |}.

(** PortAudio initialises once and fails to initialise again. *)
Definition ext_reinit_fails : Externals :=
  {| fsqrt := sqrt_floor;
     rms_f32 := fun _ => NaN;
     vad_st := unit;
     webrtc_new := fun _ => tt;
     webrtc_is_speech := fun s _ _ => (Thrown VadError, s);
     dev_raises := fun before c =>
       match c with
       | PyAudioNew => negb (Nat.eqb (length before) 0)
       | _ => false
       end;
     wave_outcome := fun _ _ _ _ => Written |}.

(** A detector that takes the whole 16-bit samples of a buffer, rejects
    buffers that do not hold 10, 20 or 30 ms of them, and hears speech in
    the others. *)
Definition ext_detector : Externals :=
  {| fsqrt := sqrt_floor;
     rms_f32 := fun _ => NaN;
     vad_st := unit;
     webrtc_new := fun _ => tt;
     webrtc_is_speech := fun s frame rate =>
       let n := Z.of_nat (Nat.div (length frame) 2) in
       if (n * 100 =? rate) || (n * 50 =? rate) || (n * 100 =? 3 * rate)
       then (Done true, s) else (Thrown VadError, s);
     dev_raises := fun _ _ => false;
     wave_outcome := fun _ _ _ _ => Written |}.

(** The defaults in pull mode, with the silence threshold lowered to 50. *)
Definition pull_config : AudioConfig :=
  {| sample_rate := 16000; channels := 1; format := "int16"; chunk_size := 1024;
     silence_threshold := 50; dynamic_silence := true;
     min_speech_duration := 0.05; speech_pad_start := 0.1; speech_pad_end := 0.2;
     device_index := None; timeout := 2;
     vad_enabled := false; vad_mode := 1; vad_frame_ms := 30 |}.

Definition world0 : World := {| calls := []; files := [] |}.

(** A pull feed that reads the given frames 64 ms apart. *)
Fixpoint pull_feed_from (t : Q) (fs : list bytes) : list pull_tick :=
  match fs with
  | [] => []
  | f :: rest => mkPull t (Done f) :: pull_feed_from (t + 0.064)%Q rest
  end.

Definition pull_feed (fs : list bytes) : Feed :=
  {| feed_start := 0; feed_pull := pull_feed_from 0 fs; feed_push := [] |}.


(** 480 samples of amplitude 25700 followed by one stray byte. *)
Definition odd_frame : bytes := repeat x64 961.

(** The defaults in push mode, with the silence threshold lowered to 50
    and a timeout of 100 ms. *)
Definition quick_push_config : AudioConfig :=
  {| sample_rate := 16000; channels := 1; format := "int16"; chunk_size := 1024;
     silence_threshold := 50; dynamic_silence := true;
     min_speech_duration := 0.05; speech_pad_start := 0.1; speech_pad_end := 0.2;
     device_index := None; timeout := 0.1;
     vad_enabled := true; vad_mode := 1; vad_frame_ms := 30 |}.

(** Polls at 30, 70 and 110 ms; the first frame of the stream, a quiet
    one, is complete after 64 ms. *)
Definition quiet_push_feed : Feed :=
  {| feed_start := 0;
     feed_pull := [];
     feed_push := [mkPush [] 0.03; mkPush [quiet1] 0.07; mkPush [] 0.11] |}.

(** Two quiet frames, a loud one, then quiet frames. *)
Definition onset_frames : list bytes :=
  [quiet1; quiet2; loud; quiet0; quiet1; quiet2; quiet0; quiet1].

(** A session that was started and stopped again. *)
Definition stopped_session : Sys ext_reinit_fails :=
  snd (stop_stream ext_reinit_fails
         (snd (start_stream ext_reinit_fails
                 (AudioInput_init ext_reinit_fails false true pull_config, world0)))).




(** Push mode at 8 kHz with frames of 125 samples (15.625 ms), a static
    threshold, and [speech_pad_end] of 31.25 ms, exactly two frames. *)
Definition short_push_config : AudioConfig :=
  {| sample_rate := 8000; channels := 1; format := "int16"; chunk_size := 125;
     silence_threshold := 50; dynamic_silence := false;
     min_speech_duration := 0.05; speech_pad_start := 0.1; speech_pad_end := 0.03125;
     device_index := None; timeout := 2;
     vad_enabled := true; vad_mode := 1; vad_frame_ms := 30 |}.

Definition loud_short : bytes := tone x64 x00 125.
Definition quiet_short : bytes := tone x01 x00 125.


(** A session whose stream is open. *)
Definition open_session (ext : Externals) (cfg : AudioConfig) : AudioInput ext :=
  fst (snd (start_stream ext (AudioInput_init ext false true cfg, world0))).





(** PortAudio never raises. *)
Definition quiet_device (ext : Externals) : Prop :=
  forall before c, dev_raises ext before c = false.

(** PortAudio opens no stream: [open] always raises, nothing else does. *)
Definition ext_no_device : Externals :=
  {| fsqrt := sqrt_floor;
     rms_f32 := fun _ => NaN;
     vad_st := unit;
     webrtc_new := fun _ => tt;
     webrtc_is_speech := fun s _ _ => (Thrown VadError, s);
     dev_raises := fun _ c => match c with PaOpen _ _ => true | _ => false end;
     wave_outcome := fun _ _ _ _ => Written |}.

(** PortAudio opens streams that do not start: [start_stream] on a stream
    always raises, nothing else does. *)
Definition ext_no_start : Externals :=
  {| fsqrt := sqrt_floor;
     rms_f32 := fun _ => NaN;
     vad_st := unit;
     webrtc_new := fun _ => tt;
     webrtc_is_speech := fun s _ _ => (Thrown VadError, s);
     dev_raises := fun _ c => match c with StreamStart _ => true | _ => false end;
     wave_outcome := fun _ _ _ _ => Written |}.




(** Verdict [k] is the first Speech verdict of the list. *)
Definition first_speech (bs : list bool) (k : nat) : Prop :=
  nth_error bs k = Some true /\ firstn k bs = repeat false k.

(** What the pull loop holds when it waits for speech, after the frames
    [pre] were read: until a Speech verdict nothing is accumulated; from
    then on the accumulated frames are the frames read from the first
    Speech frame on. *)
Definition onset_inv (ext : Externals) (v0 : VoiceActivityDetector ext)
    (pre : list bytes) (s : Loop ext) : Prop :=
  fst s = vad_run ext v0 pre /\
  if speech_detected (snd s) then
    exists k, first_speech (labels ext v0 pre) k /\ frames (snd s) = skipn k pre
  else frames (snd s) = [] /\ labels ext v0 pre = repeat false (length pre).

(** ** list_devices *)

(** What PortAudio reports about a device: the entries of the dictionary
    [get_device_info_by_index] returns that [list_devices] reads.  The
    default sample rate is a finite float. *)
Record device_info : Type := mkDeviceInfo {
  info_name : string;
  maxInputChannels : Z;
  defaultSampleRate : Q
}.

(** An entry of the list [list_devices] returns. *)
Record device_entry : Type := mkDeviceEntry {
  entry_index : Z;
  entry_name : string;
  entry_channels : Z;
  entry_sample_rate : Z
}.

(** The answers a PyAudio instance gives to the two queries. Queries are
    not part of the call log. *)
Record Host : Type := mkHost {
  get_device_count : outcome Z;
  get_device_info_by_index : Z -> outcome device_info
}.

Definition entry_of (i : Z) (info : device_info) : device_entry :=
  {| entry_index := i;
     entry_name := info_name info;
     entry_channels := maxInputChannels info;
     entry_sample_rate := py_int (defaultSampleRate info) |}.

(** The body of [for i in range(...)], from index [i] on, for [n] more
    turns. *)
Fixpoint scan_devices (ext : Externals) (host : Host) (i : Z) (n : nat)
    (devices : list device_entry) : M (Sys ext) (list device_entry) :=
  match n with
  | O => ret devices
  | S n' =>
      (info <- call (get_device_info_by_index host i) ;;
       scan_devices ext host (i + 1) n'
         (if maxInputChannels info >? 0
          then devices ++ [entry_of i info]
          else devices))%monad
  end.

Definition list_devices (ext : Externals) (host : Host)
  : M (Sys ext) (list device_entry) :=
  (self <- on_self ext get ;;
   if negb (pyaudio self) then ret []
   else
     pa <- on_world ext fresh ;;
     on_world ext (dev ext PyAudioNew) ;;;
     try_finally
       (count <- call (get_device_count host) ;;
        scan_devices ext host 0 (Z.to_nat count) [])
       (on_world ext (dev ext (PaTerminate pa))))%monad.

(** The list comprehension [list_devices] amounts to when every query
    answers: the input devices among the first [n], in index order. *)
Definition input_devices (info : Z -> device_info) (n : nat) : list device_entry :=
  map (fun i => entry_of i (info i))
      (filter (fun i => maxInputChannels (info i) >? 0)
              (map Z.of_nat (seq 0 n))).

(** A host with three devices, the second one output-only. *)
Definition host3 : Host :=
  {| get_device_count := Done 3;
     get_device_info_by_index := fun i =>
       if i =? 0 then Done (mkDeviceInfo "mic" 2 44100)
       else if i =? 1 then Done (mkDeviceInfo "speakers" 0 48000)
       else if i =? 2 then Done (mkDeviceInfo "usb" 1 (16000.5))
       else Thrown IOError |}.

(** A host whose second device cannot be queried. *)
Definition host_broken : Host :=
  {| get_device_count := Done 3;
     get_device_info_by_index := fun i =>
       if i =? 1 then Thrown IOError else Done (mkDeviceInfo "mic" 2 44100) |}.

(** ** The application: Voice2Text (voice2text_main.py) *)

(** The speech engine and the text output, the two collaborators of the
    audio input.  The engine has a state of its own; what the output does
    with a text may depend on the texts it was handed before.
    [KeyboardInterrupt] is not modelled. *)
Record Collaborators : Type := mkCollaborators {
  engine_st : Type;
  (** [output.show_notification(f"... {engine.get_name()} ...")] *)
  show_notification : outcome unit;
  (** [engine.recognize(audio_data)]: a text or [None] *)
  recognize : engine_st -> bytes -> outcome (option string) * engine_st;
  (** [output.type_text(text)] *)
  type_text : list string -> string -> outcome bool
}.

Section Application.

Local Open Scope monad_scope.

Variable ext : Externals.
Variable col : Collaborators.

(** The parts of a [Voice2Text] object that [start] and [stop] use:
    [continuous] is [config.get('continuous', True)], [audio] is the
    [AudioInput] with the device and files around it, [typed] the texts
    handed to [output.type_text], oldest first. *)
Record Voice2Text : Type := mkVoice2Text {
  is_running : bool;
  continuous : bool;
  audio : Sys ext;
  engine : engine_st col;
  typed : list string
}.

Definition set_is_running (b : bool) (app : Voice2Text) : Voice2Text :=
  {| is_running := b; continuous := continuous app; audio := audio app;
     engine := engine app; typed := typed app |}.

Definition set_audio (s : Sys ext) (app : Voice2Text) : Voice2Text :=
  {| is_running := is_running app; continuous := continuous app; audio := s;
     engine := engine app; typed := typed app |}.

Definition on_audio {A} (c : M (Sys ext) A) : M Voice2Text A :=
  zoom audio set_audio c.

Definition engine_recognize (audio_data : bytes) : M Voice2Text (option string) :=
  fun app =>
    match recognize col (engine app) audio_data with
    | (r, e') =>
        let app' := {| is_running := is_running app; continuous := continuous app;
                       audio := audio app; engine := e'; typed := typed app |} in
        match r with
        | Done text => (Ret text, app')
        | Thrown e => (Raise e, app')
        end
    end.

Definition output_type_text (text : string) : M Voice2Text bool :=
  fun app =>
    let app' := {| is_running := is_running app; continuous := continuous app;
                   audio := audio app; engine := engine app;
                   typed := typed app ++ [text] |} in
    match type_text col (typed app) text with
    | Done b => (Ret b, app')
    | Thrown e => (Raise e, app')
    end.

(** [if audio_data:] and [if text:] hold for a value that is neither
    [None] nor empty. *)
Definition _run_single (feed : Feed) : M Voice2Text unit :=
  (audio_data <- on_audio (capture_audio ext None true feed) ;;
   match audio_data with
   | Some ((_ :: _) as data) =>
       text <- engine_recognize data ;;
       match text with
       | Some (String _ _ as t) => output_type_text t ;;; ret tt
       | _ => ret tt
       end
   | _ => ret tt
   end)%monad.

(** [while self.is_running]: one feed per round; a round that raises is
    logged and the loop goes on.  The messages printed and the sleeps are
    left out. *)
Fixpoint _run_continuous (rounds : list Feed) : M Voice2Text unit :=
  (self <- get ;;
   if negb (is_running self) then ret tt
   else
     match rounds with
     | [] => starve
     | feed :: rest =>
         try_catch
           (audio_data <- on_audio (capture_audio ext None true feed) ;;
            match audio_data with
            | Some ((_ :: _) as data) =>
                text <- engine_recognize data ;;
                match text with
                | Some (String _ _ as t) => output_type_text t ;;; ret tt
                | _ => ret tt
                end
            | _ => ret tt
            end)
           (fun _ => ret tt) ;;;
         _run_continuous rest
     end)%monad.

Definition stop : M Voice2Text unit :=
  (modify (set_is_running false) ;;;
   on_audio (stop_stream ext))%monad.

(** [start]: [feed] serves the first capture, [more] the later rounds of
    the continuous mode. *)
Definition start (feed : Feed) (more : list Feed) : M Voice2Text unit :=
  (modify (set_is_running true) ;;;
   try_finally
     (try_catch
        (call (show_notification col) ;;;
         started <- on_audio (start_stream ext) ;;
         if negb started then ret tt
         else
           self <- get ;;
           if continuous self then _run_continuous (feed :: more)
           else _run_single feed)
        (fun _ => ret tt))
     stop)%monad.

End Application.

Arguments is_running {ext col} v.
Arguments continuous {ext col} v.
Arguments audio {ext col} v.
Arguments engine {ext col} v.
Arguments typed {ext col} v.

(** An engine that hears "hello" in every recording and an output that
    accepts every text. *)
Definition col0 : Collaborators :=
  {| engine_st := unit;
     show_notification := Done tt;
     recognize := fun s _ => (Done (Some "hello"%string), s);
     type_text := fun _ _ => Done true |}.

(** A one-shot application over a fresh audio input in pull mode. *)
Definition app0 : Voice2Text ext0 col0 :=
  mkVoice2Text ext0 col0 false false
    (AudioInput_init ext0 false true pull_config, world0) tt [].

(** ** Configuration dictionaries (voice2text_main.py) *)

(** A configuration value: a dictionary or anything else.  What is not a
    dictionary is only copied by the code below. *)
Inductive scalar : Type :=
| SNone
| SBool (b : bool)
| SInt (z : Z)
| SFloat (q : Q)
| SStr (s : string).

(** A dictionary is the list of its items in insertion order. *)
#[warnings="-register-all"] Inductive pyobj : Type :=
| Leaf (v : scalar)
| Dict (items : list (string * pyobj)).

Definition dict : Type := list (string * pyobj).

(** [d.get(k)] / [k in d]. *)
Fixpoint dict_get (k : string) (d : dict) : option pyobj :=
  match d with
  | [] => None
  | (k', v) :: rest => if String.eqb k k' then Some v else dict_get k rest
  end.

(** [d[k] = v]: an existing key keeps its place, a new one goes last. *)
Fixpoint dict_set (k : string) (v : pyobj) (d : dict) : dict :=
  match d with
  | [] => [(k, v)]
  | (k', v') :: rest =>
      if String.eqb k k' then (k, v) :: rest else (k', v') :: dict_set k v rest
  end.

(** [_deep_update(d, u)] for the dictionary [u], as the contents of [d]
    afterwards; the inner loop is [for k, v in u.items()]. *)
Fixpoint update_from (u : pyobj) : dict -> dict :=
  match u with
  | Leaf _ => fun d => d
  | Dict items =>
      (fix loop (items : dict) (d : dict) {struct items} : dict :=
         match items with
         | [] => d
         | (k, v) :: rest =>
             loop rest
               match v, dict_get k d with
               | Dict _, Some (Dict dk) => dict_set k (Dict (update_from v dk)) d
               | _, _ => dict_set k v d
               end
         end) items
  end.

Definition _deep_update (d u : dict) : dict := update_from (Dict u) d.

(** [o[k1][k2]...[kn]], [None] when a key is missing or a value on the way
    is not a dictionary. *)
Fixpoint lookup_path (p : list string) (o : pyobj) : option pyobj :=
  match p with
  | [] => Some o
  | k :: p' =>
      match o with
      | Dict d =>
          match dict_get k d with
          | Some v => lookup_path p' v
          | None => None
          end
      | Leaf _ => None
      end
  end.

(** No key occurs twice in a dictionary, at any depth: what a Python
    dictionary guarantees. *)
Fixpoint unique_keys (o : pyobj) : bool :=
  match o with
  | Leaf _ => true
  | Dict items =>
      (fix all (l : dict) : bool :=
         match l with
         | [] => true
         | (k, v) :: rest =>
             match dict_get k rest with
             | None => unique_keys v && all rest
             | Some _ => false
             end
         end) items
  end.


(** The 'audio' section of the defaults of [Voice2Text] and a user
    configuration that changes one of its entries. *)
Definition default_audio_section : dict :=
  [("sample_rate"%string, Leaf (SInt 16000));
   ("channels"%string, Leaf (SInt 1));
   ("format"%string, Leaf (SStr "int16"));
   ("device_index"%string, Leaf SNone);
   ("vad_enabled"%string, Leaf (SBool true));
   ("silence_threshold"%string, Leaf (SInt 400));
   ("dynamic_silence"%string, Leaf (SBool true))].

Definition app_defaults : dict :=
  [("continuous"%string, Leaf (SBool true));
   ("engine"%string, Leaf (SStr "google"));
   ("audio"%string, Dict default_audio_section)].

Definition user_config : dict :=
  [("engine"%string, Leaf (SStr "whisper"));
   ("audio"%string, Dict [("sample_rate"%string, Leaf (SInt 8000))])].

(** ** Filtering error text (core/error_handlers.py) *)

(** A Python [str]: the sequence of its code points. *)
Definition str : Type := list N.

Definition str_of (s : string) : str :=
  map Ascii.N_of_ascii (list_ascii_of_string s).

(** The line boundaries of [str.splitlines]: LF, VT, FF, CR, FS, GS, RS,
    NEL, LS and PS. *)
Definition is_linebreak (c : N) : bool :=
  existsb (N.eqb c) [10; 11; 12; 13; 28; 29; 30; 133; 8232; 8233]%N.

(** [splitlines], with the line read so far: a boundary ends the line, CR
    LF counts as one boundary, and what follows the last boundary is a
    line only when it is not empty. *)
Fixpoint splitlines_from (line : str) (s : str) : list str :=
  match s with
  | [] => match line with [] => [] | _ => [line] end
  | c :: rest =>
      if is_linebreak c then
        line :: match rest with
                | c' :: rest' =>
                    if (N.eqb c 13 && N.eqb c' 10)%bool
                    then splitlines_from [] rest'
                    else splitlines_from [] rest
                | [] => splitlines_from [] rest
                end
      else splitlines_from (line ++ [c]) rest
  end.

Definition splitlines (s : str) : list str := splitlines_from [] s.

Fixpoint starts_with (p l : str) : bool :=
  match p, l with
  | [], _ => true
  | _ :: _, [] => false
  | a :: p', b :: l' => (N.eqb a b && starts_with p' l')%bool
  end.

(** [p in l] on strings. *)
Fixpoint contains (p l : str) : bool :=
  (starts_with p l ||
   match l with
   | [] => false
   | _ :: l' => contains p l'
   end)%bool.

(** [sep.join(ls)]. *)
Fixpoint str_join (sep : str) (ls : list str) : str :=
  match ls with
  | [] => []
  | [l] => l
  | l :: rest => l ++ sep ++ str_join sep rest
  end.

Definition patterns : list str :=
  map str_of
    ["ALSA lib"; "Cannot connect to server socket"; "jack server";
     "JackShmReadWritePtr"; "pcm_"; "snd_"]%string.

Definition filter_alsa_jack_errors (error_text : str) : str :=
  str_join [10%N]
    (filter (fun line => negb (existsb (fun pattern => contains pattern line) patterns))
            (splitlines error_text)).

(** A line has no boundary in it and none of the patterns. *)
Definition clean_line (l : str) : bool :=
  (forallb (fun c => negb (is_linebreak c)) l &&
   negb (existsb (fun pattern => contains pattern l) patterns))%bool.

(** * Properties *)

(** ** Rounding *)

Lemma pow2_pos (k : Z) : (0 < pow2 k)%Q.
Proof.
  unfold pow2. destruct (0 <=? k) eqn:E.
  - apply Z.leb_le in E. unfold Qlt. cbn. pose proof (Z.pow_pos_nonneg 2 k). lia.
  - apply Z.leb_gt in E. apply Qlt_shift_div_l.
    + unfold Qlt. cbn. pose proof (Z.pow_pos_nonneg 2 (- k)). lia.
    + rewrite Qmult_0_l. reflexivity.
Qed.

(** [2^(a-b-1) <= n/d] when [2^a <= n] and [d < 2^(b+1)]. *)
Lemma pow2_below_quotient (a b n : Z) (d : positive) :
  0 <= a -> 0 <= b -> 2 ^ a <= n -> Zpos d < 2 ^ (b + 1) ->
  (pow2 (a - b - 1) <= n # d)%Q.
Proof.
  intros Ha Hb Hn Hd. unfold pow2. destruct (0 <=? a - b - 1) eqn:E.
  - apply Z.leb_le in E. unfold Qle. cbn.
    assert (H : 2 ^ (a - b - 1) * 2 ^ (b + 1) = 2 ^ a)
      by (rewrite <- Z.pow_add_r by lia; f_equal; lia).
    pose proof (Z.pow_pos_nonneg 2 (a - b - 1)). nia.
  - apply Z.leb_gt in E.
    assert (H : 2 ^ a * 2 ^ (- (a - b - 1)) = 2 ^ (b + 1))
      by (rewrite <- Z.pow_add_r by lia; f_equal; lia).
    pose proof (Z.pow_pos_nonneg 2 (- (a - b - 1))) as Hp.
    apply Qle_shift_div_r.
    + unfold Qlt. cbn. lia.
    + unfold Qle. cbn. nia.
Qed.

Lemma exponent_le (q : Q) : ~ q == 0 -> (pow2 (exponent q) <= Qabs q)%Q.
Proof.
  intros Hq. unfold exponent.
  destruct (Qle_bool _ (Qabs q)) eqn:E; [apply Qle_bool_iff; exact E|].
  destruct q as [n d]. cbn [Qnum Qden Qabs].
  assert (Hn : n <> 0) by (intros ->; apply Hq; reflexivity).
  apply pow2_below_quotient.
  - apply Z.log2_nonneg.
  - apply Z.log2_nonneg.
  - apply Z.log2_spec. lia.
  - apply Z.log2_spec. lia.
Qed.

Lemma round_half_even_bounds (q : Q) :
  (q - (1 # 2) <= inject_Z (round_half_even q) <= q + (1 # 2))%Q.
Proof.
  unfold round_half_even.
  pose proof (Qfloor_le q) as Hlo. pose proof (Qlt_floor q) as Hhi.
  rewrite inject_Z_plus in Hhi. change (inject_Z 1) with 1%Q in Hhi.
  destruct (Qcompare_spec (q - inject_Z (Qfloor q)) (1 # 2)) as [H|H|H];
    [destruct (Z.even (Qfloor q))| |];
    rewrite ?inject_Z_plus; change (inject_Z 1) with 1%Q; lra.
Qed.

Lemma round_half_even_nonneg (q : Q) : (0 <= q)%Q -> 0 <= round_half_even q.
Proof.
  intros Hq. unfold round_half_even.
  assert (Hf : 0 <= Qfloor q).
  { change 0 with (Qfloor 0). apply Qfloor_resp_le. exact Hq. }
  destruct (Qcompare _ _); [destruct (Z.even _)| |]; lia.
Qed.

(** Rounding keeps the sign and moves a number by at most half a unit in
    the last place. *)
Lemma fl_nonneg (q : Q) : (0 <= q)%Q -> (0 <= fl q)%Q.
Proof.
  intros Hq. unfold fl. destruct (Qeq_bool q 0); [lra|].
  pose proof (pow2_pos (exponent q)) as Hp.
  apply Qmult_le_0_compat.
  - change 0%Q with (inject_Z 0). rewrite <- Zle_Qle.
    apply round_half_even_nonneg. apply Qle_shift_div_l; lra.
  - nra.
Qed.

Lemma fl_error (q : Q) : (Qabs (fl q - q) <= half_ulp * Qabs q)%Q.
Proof.
  unfold fl. destruct (Qeq_bool q 0) eqn:E.
  - apply Qeq_bool_iff in E. rewrite E. cbn. unfold half_ulp. lra.
  - assert (Hq : ~ q == 0) by (intros H; apply Qeq_bool_iff in H; congruence).
    pose proof (exponent_le q Hq) as He.
    pose proof (pow2_pos (exponent q)) as Hp.
    set (p := pow2 (exponent q)) in *.
    set (ulp := (p * (1 # 4503599627370496))%Q).
    assert (Hulp : (0 < ulp)%Q) by (unfold ulp; nra).
    pose proof (round_half_even_bounds (q / ulp)) as [Hlo Hhi].
    set (m := inject_Z (round_half_even (q / ulp))) in *.
    assert (Hdiv : (q / ulp * ulp == q)%Q) by (field; lra).
    assert (Hm : (- ((1 # 2) * ulp) <= m * ulp - q <= (1 # 2) * ulp)%Q) by nra.
    apply Qabs_case; intros _; unfold half_ulp, ulp in *; lra.
Qed.

Lemma fl_lower (q : Q) : (0 <= q)%Q -> ((1 - half_ulp) * q <= fl q)%Q.
Proof.
  intros Hq. pose proof (fl_error q) as H.
  rewrite (Qabs_pos q Hq) in H.
  revert H. apply Qabs_case; intros; unfold half_ulp in *; lra.
Qed.


Lemma fl_neg_bounds (q : Q) :
  (q <= 0)%Q -> ((1 + half_ulp) * q <= fl q <= (1 - half_ulp) * q)%Q.
Proof.
  intros Hq. pose proof (fl_error q) as H.
  rewrite (Qabs_neg q Hq) in H.
  revert H. apply Qabs_case; intros; unfold half_ulp in *; lra.
Qed.

Lemma fl_095 : fl 0.95 = 8556839292003942 # 9007199254740992.
Proof. vm_compute. reflexivity. Qed.

Lemma fl_005 : fl 0.05 = 7205759403792794 # 144115188075855872.
Proof. vm_compute. reflexivity. Qed.

Lemma updated_floor_nonneg (t e : Q) :
  (0 <= t)%Q -> (0 <= e)%Q -> (0 <= updated_floor t e)%Q.
Proof.
  intros Ht He. unfold updated_floor. rewrite fl_095, fl_005.
  apply fl_nonneg.
  assert (H1 : (0 <= fl ((8556839292003942 # 9007199254740992) * t))%Q)
    by (apply fl_nonneg; nra).
  assert (H2 : (0 <= fl (1.5 * e))%Q) by (apply fl_nonneg; lra).
  assert (H3 : (0 <= fl ((7205759403792794 # 144115188075855872) * fl (1.5 * e)))%Q)
    by (apply fl_nonneg; nra).
  lra.
Qed.

(** An update never takes the floor below the energy that caused it. *)
Lemma updated_floor_above_energy (t e : Q) :
  (0 <= t)%Q -> (e < t)%Q -> (e <= updated_floor t e)%Q.
Proof.
  intros Ht Het. unfold updated_floor. rewrite fl_095, fl_005.
  set (c95 := 8556839292003942 # 9007199254740992).
  set (c05 := 7205759403792794 # 144115188075855872).
  pose proof (fl_lower (c95 * t)) as HA.
  assert (HA0 : (0 <= c95 * t)%Q) by (unfold c95; nra).
  specialize (HA HA0). pose proof (fl_nonneg _ HA0) as HAn.
  set (A := fl (c95 * t)) in *.
  destruct (Qlt_le_dec e 0) as [Hneg|Hpos].
  - assert (H1 : (1.5 * e <= 0)%Q) by lra.
    pose proof (fl_neg_bounds _ H1) as [HB1 HB1'].
    set (B1 := fl (1.5 * e)) in *.
    assert (H2 : (c05 * B1 <= 0)%Q) by (unfold c05, half_ulp in *; lra).
    pose proof (fl_neg_bounds _ H2) as [HB HB'].
    set (B := fl (c05 * B1)) in *.
    destruct (Qlt_le_dec (A + B) 0) as [Hs|Hs].
    + pose proof (fl_neg_bounds (A + B) (Qlt_le_weak _ _ Hs)) as [HS _].
      unfold c95, c05, half_ulp in *. lra.
    + pose proof (fl_nonneg _ Hs). lra.
  - assert (H1 : (0 <= 1.5 * e)%Q) by lra.
    pose proof (fl_lower _ H1) as HB1. pose proof (fl_nonneg _ H1) as HB1n.
    set (B1 := fl (1.5 * e)) in *.
    assert (H2 : (0 <= c05 * B1)%Q) by (unfold c05, half_ulp in *; lra).
    pose proof (fl_lower _ H2) as HB. pose proof (fl_nonneg _ H2) as HBn.
    set (B := fl (c05 * B1)) in *.
    assert (Hs : (0 <= A + B)%Q) by lra.
    pose proof (fl_lower _ Hs) as HS.
    unfold c95, c05, half_ulp in *. lra.
Qed.

(** ** The energy strategy *)

Ltac run_monad :=
  unfold bind, get, put, modify, ret, raise, try_catch, call, zoom; cbn.

Lemma Qltb_lt (a b : Q) : Qltb a b = true <-> (a < b)%Q.
Proof.
  unfold Qltb. rewrite negb_true_iff. split; intros H.
  - apply Qnot_le_lt. intros Hle. apply Qle_bool_iff in Hle. congruence.
  - destruct (Qle_bool b a) eqn:E; [|reflexivity].
    apply Qle_bool_iff in E. exfalso. apply (Qlt_not_le _ _ H E).
Qed.

Lemma Qgtb_lt (a b : Q) : Qgtb a b = true <-> (b < a)%Q.
Proof. apply Qltb_lt. Qed.

Section EnergyStrategy.

Variable ext : Externals.
Variable v : VoiceActivityDetector ext.
Variable frame : bytes.

Lemma energy_undecodable e :
  frombuffer (dtype_of (v_config v)) frame = Thrown e ->
  _is_speech_energy ext frame v = (Ret false, v).
Proof.
  intros H. unfold _is_speech_energy. run_monad. rewrite H. reflexivity.
Qed.

Lemma energy_static arr :
  frombuffer (dtype_of (v_config v)) frame = Done arr ->
  _dynamic_threshold v = false ->
  _is_speech_energy ext frame v =
    (Ret (pf_gt (rms ext (dtype_of (v_config v)) arr) (_energy_threshold v)), v).
Proof.
  intros H Hd. unfold _is_speech_energy. run_monad. rewrite H, Hd. reflexivity.
Qed.

Lemma energy_keep arr :
  frombuffer (dtype_of (v_config v)) frame = Done arr ->
  pf_lt (rms ext (dtype_of (v_config v)) arr) (_energy_threshold v) = false ->
  _is_speech_energy ext frame v =
    (Ret (pf_gt (rms ext (dtype_of (v_config v)) arr) (_energy_threshold v)), v).
Proof.
  intros H Hlt. unfold _is_speech_energy, _update_energy_threshold. run_monad.
  rewrite H. destruct (_dynamic_threshold v); cbn; [|reflexivity].
  rewrite Hlt. reflexivity.
Qed.

Lemma energy_update arr e :
  frombuffer (dtype_of (v_config v)) frame = Done arr ->
  _dynamic_threshold v = true ->
  rms ext (dtype_of (v_config v)) arr = Fin e ->
  (e < _energy_threshold v)%Q ->
  let t := updated_floor (_energy_threshold v) e in
  _is_speech_energy ext frame v = (Ret (Qgtb e t), set_energy_threshold t v).
Proof.
  intros H Hd He Hlt. unfold _is_speech_energy, _update_energy_threshold. run_monad.
  rewrite H, Hd. cbn. rewrite He. cbn.
  apply Qltb_lt in Hlt. rewrite Hlt. reflexivity.
Qed.

End EnergyStrategy.






(** Louder frames are left out of C5: numpy squares 16-bit samples in 16
    bits, so for a frame of constant amplitude 190 (below the default
    floor of 300) the mean square is negative, the energy is [nan], the
    frame is classified Silence and the floor does not move. *)
Lemma wrapped_squares_keep_floor :
  frombuffer Int16 (tone xbe x00 1024) = Done (repeat 190 1024) /\
  rms ext0 Int16 (repeat 190 1024) = NaN /\
  _is_speech_energy ext0 (tone xbe x00 1024)
    (VoiceActivityDetector_init ext0 false default_config)
  = (Ret false, VoiceActivityDetector_init ext0 false default_config).
Proof.
  repeat split; vm_compute; reflexivity.
Qed.

(** ** The classifier *)

Lemma rms_nonneg (ext : Externals) (d : dtype) (arr : list Z) (e : Q) :
  numpy_nonneg ext -> rms ext d arr = Fin e -> (0 <= e)%Q.
Proof.
  intros [Hs Hf] H. destruct d; cbn in H.
  - unfold np_sqrt in H. destruct (mean (square_i16 arr)) as [q| |]; try discriminate.
    destruct (Qltb q 0); [discriminate|]. injection H as <-. apply Hs.
  - destruct arr; [discriminate|]. eapply Hf, H.
Qed.

Lemma pf_lt_fin (e : pyfloat) (t : Q) :
  pf_lt e t = true -> exists q, e = Fin q /\ (q < t)%Q.
Proof.
  destruct e as [q| |]; cbn; try discriminate.
  intros H. exists q. split; [reflexivity | now apply Qltb_lt].
Qed.

(** The energy strategy always returns a verdict; it keeps a non-negative
    floor non-negative, and a Speech verdict means the floor did not move. *)
Lemma energy_verdict (ext : Externals) (v : VoiceActivityDetector ext) (frame : bytes) :
  exists b v',
    _is_speech_energy ext frame v = (Ret b, v') /\
    _vad v' = _vad v /\
    (numpy_nonneg ext -> (0 <= _energy_threshold v)%Q ->
     (0 <= _energy_threshold v')%Q /\
     (b = true -> _energy_threshold v' = _energy_threshold v)).
Proof.
  destruct (frombuffer (dtype_of (v_config v)) frame) as [arr|e] eqn:Hf.
  2:{ exists false, v. rewrite (energy_undecodable ext v frame e Hf). auto. }
  destruct (pf_lt (rms ext (dtype_of (v_config v)) arr) (_energy_threshold v)) eqn:Hlt.
  2:{ eexists _, v. rewrite (energy_keep ext v frame arr Hf Hlt). auto. }
  destruct (_dynamic_threshold v) eqn:Hd.
  2:{ eexists _, v. rewrite (energy_static ext v frame arr Hf Hd). auto. }
  destruct (pf_lt_fin _ _ Hlt) as (q & Hq & Hqt).
  eexists _, _. rewrite (energy_update ext v frame arr q Hf Hd Hq Hqt).
  split; [reflexivity|]. split; [reflexivity|].
  intros Hnn Ht. pose proof (rms_nonneg ext _ _ _ Hnn Hq) as Hq0. cbn. split.
  - apply updated_floor_nonneg; assumption.
  - intros Hb. apply Qgtb_lt in Hb.
    pose proof (updated_floor_above_energy _ _ Ht Hqt). lra.
Qed.

Lemma is_speech_verdict (ext : Externals) (v : VoiceActivityDetector ext)
    (frame : bytes) (sr : option Z) :
  exists b v',
    is_speech ext frame sr v = (Ret b, v') /\
    (numpy_nonneg ext -> (0 <= _energy_threshold v)%Q ->
     (0 <= _energy_threshold v')%Q /\
     (b = true -> _energy_threshold v' = _energy_threshold v)).
Proof.
  unfold is_speech. run_monad. destruct (_vad v) as [d|] eqn:Hv.
  - destruct (webrtc_is_speech ext d frame _) as [[b|e] d'] eqn:Hw.
    + exists b, (set_vad (Some d') v). cbn. auto.
    + destruct (energy_verdict ext (set_vad (Some d') v) frame) as (b & v' & Hrun & _ & Hinv).
      exists b, v'. split; [exact Hrun|]. exact Hinv.
  - destruct (energy_verdict ext v frame) as (b & v' & Hrun & _ & Hinv).
    exists b, v'. split; [exact Hrun|]. exact Hinv.
Qed.

(** C6: with a non-negative configured silence_threshold, the energy floor
    is non-negative after every classification, and a frame classified as
    Speech leaves the floor as it was. *)
Theorem floor_nonneg_and_kept_by_speech (ext : Externals) (have_webrtc : bool)
    (cfg : AudioConfig) (v : VoiceActivityDetector ext) :
  numpy_nonneg ext ->
  (0 <= silence_threshold cfg)%Q ->
  vad_reachable ext have_webrtc cfg v ->
  (0 <= _energy_threshold v)%Q /\
  (forall frame sr v',
     is_speech ext frame sr v = (Ret true, v') ->
     _energy_threshold v' = _energy_threshold v).
Proof.
  intros Hnn Hcfg Hreach.
  assert (Hpos : (0 <= _energy_threshold v)%Q).
  { induction Hreach as [|v frame sr Hreach IH].
    - exact Hcfg.
    - destruct (is_speech_verdict ext v frame sr) as (b & v' & Hrun & Hinv).
      rewrite Hrun. cbn. apply (Hinv Hnn IH). }
  split; [exact Hpos|].
  intros frame sr v' Hrun.
  destruct (is_speech_verdict ext v frame sr) as (b & v'' & Hrun' & Hinv).
  rewrite Hrun in Hrun'. injection Hrun' as <- <-.
  now apply (Hinv Hnn Hpos).
Qed.

Lemma ext0_nonneg : numpy_nonneg ext0.
Proof.
  split.
  - intros q. cbn. unfold sqrt_floor, Qle. cbn.
    pose proof (Z.sqrt_nonneg (Qnum q / Z.pos (Qden q))). lia.
  - intros ws q H. discriminate H.
Qed.

Lemma floor_nonneg_and_kept_by_speech_witness :
  (0 <= _energy_threshold
          (snd (is_speech ext0 quiet1 None (VoiceActivityDetector_init ext0 false pull_config))))%Q /\
  (forall frame sr v',
     is_speech ext0 frame sr
       (snd (is_speech ext0 quiet1 None (VoiceActivityDetector_init ext0 false pull_config)))
     = (Ret true, v') ->
     _energy_threshold v'
     = _energy_threshold
         (snd (is_speech ext0 quiet1 None (VoiceActivityDetector_init ext0 false pull_config)))).
Proof.
  apply (floor_nonneg_and_kept_by_speech ext0 false pull_config).
  - exact ext0_nonneg.
  - vm_compute. discriminate.
  - apply reach_step, reach_init.
Defined.

Lemma energy_silence_on_bad_frame (ext : Externals) (v : VoiceActivityDetector ext)
    (frame : bytes) :
  frame = [] \/ malformed (v_config v) frame ->
  _is_speech_energy ext frame v = (Ret false, v).
Proof.
  intros [->|Hbad].
  - assert (Hf : frombuffer (dtype_of (v_config v)) [] = Done []).
    { unfold frombuffer. destruct (dtype_of (v_config v)); reflexivity. }
    rewrite (energy_keep ext v [] [] Hf); destruct (dtype_of (v_config v)); reflexivity.
  - unfold malformed in Hbad.
    assert (Hf : frombuffer (dtype_of (v_config v)) frame = Thrown ValueError).
    { unfold frombuffer. apply Nat.eqb_neq in Hbad. rewrite Hbad. reflexivity. }
    apply (energy_undecodable ext v frame _ Hf).
Qed.

(** C7, amended: for every byte string, [is_speech] returns a boolean and
    does not raise; a failure of the external detector hands that one frame
    to the energy strategy; and whenever the energy strategy decides (no
    detector, or the detector failed on the frame), an empty or malformed
    frame is classified as Silence. *)
Theorem is_speech_total_with_fallback (ext : Externals) (v : VoiceActivityDetector ext)
    (frame : bytes) (sr : option Z) :
  (exists b v', is_speech ext frame sr v = (Ret b, v')) /\
  (forall d e d',
     _vad v = Some d ->
     webrtc_is_speech ext d frame (rate_for v sr) = (Thrown e, d') ->
     is_speech ext frame sr v = _is_speech_energy ext frame (set_vad (Some d') v)) /\
  (_vad v = None -> is_speech ext frame sr v = _is_speech_energy ext frame v) /\
  (detector_declines v frame sr ->
   frame = [] \/ malformed (v_config v) frame ->
   fst (is_speech ext frame sr v) = Ret false).
Proof.
  assert (Hfall : forall d e d',
     _vad v = Some d ->
     webrtc_is_speech ext d frame (rate_for v sr) = (Thrown e, d') ->
     is_speech ext frame sr v = _is_speech_energy ext frame (set_vad (Some d') v)).
  { intros d e d' Hv Hw. unfold is_speech. run_monad. rewrite Hv.
    unfold rate_for in Hw. rewrite Hw. reflexivity. }
  assert (Hnone : _vad v = None ->
     is_speech ext frame sr v = _is_speech_energy ext frame v).
  { intros Hv. unfold is_speech. run_monad. rewrite Hv. reflexivity. }
  split; [|split; [exact Hfall|split; [exact Hnone|]]].
  - destruct (is_speech_verdict ext v frame sr) as (b & v' & Hrun & _). eauto.
  - intros Hdec Hbad. unfold detector_declines in Hdec.
    destruct (_vad v) as [d|] eqn:Hv.
    + destruct Hdec as [e He].
      destruct (webrtc_is_speech ext d frame (rate_for v sr)) as [r d'] eqn:Hw.
      cbn in He. subst r. rewrite (Hfall d e d' eq_refl Hw).
      rewrite energy_silence_on_bad_frame; [reflexivity | exact Hbad].
    + rewrite (Hnone eq_refl).
      rewrite energy_silence_on_bad_frame; [reflexivity | exact Hbad].
Qed.

(** C7 as stated fails: a loaded detector that accepts a buffer with a
    stray byte decides on it, and here it hears speech. *)
Lemma detector_hears_malformed_frame :
  malformed default_config odd_frame /\
  fst (is_speech ext_detector odd_frame None
         (VoiceActivityDetector_init ext_detector true default_config)) = Ret true.
Proof.
  split.
  - vm_compute. discriminate.
  - vm_compute. reflexivity.
Qed.

(** ** The device session *)

Ltac run_sys :=
  unfold on_self, on_world, dev, try_finally; run_monad.

(** Closes one case of [stop_stream_idempotent] once the calls made by the
    first [stop_stream] are given. *)
Ltac stopped_case :=
  split; [reflexivity|]; cbn;
  split; [reflexivity|];
  split; [reflexivity|];
  split; [intros ?; discriminate|];
  split; [reflexivity|];
  split; [reflexivity|];
  split; [cbn; rewrite <- ?app_assoc, ?app_nil_r; reflexivity|];
  split; intros ? Heq; inversion Heq; subst; unfold occurrences; cbn;
    rewrite ?Nat.eqb_refl; cbn; repeat split; intros; (lia || congruence).

(** What holds of two calls in a row for every session and every failure
    of PortAudio: a second [stop_stream] right after a first one returns
    without an error and changes nothing; the first call leaves the session
    closed ([stream] and [pa_instance] cleared), having asked PortAudio
    once to stop the stream it held and once to terminate the instance it
    held; it has asked to close the stream once if stopping it did not
    raise, and not at all otherwise. *)
Theorem stop_stream_idempotent (ext : Externals) (a : AudioInput ext) (w : World) :
  exists a1 w1 released,
    stop_stream ext (a, w) = (Ret tt, (a1, w1)) /\
    stop_stream ext (a1, w1) = (Ret tt, (a1, w1)) /\
    stream a1 = None /\
    (forall pa, pa_instance a1 <> Live pa) /\
    stop_requested a1 = true /\
    is_recording a1 = false /\
    calls w1 = calls w ++ released /\
    (forall st, stream a = Some st ->
       occurrences (StreamStop st) released = 1%nat /\
       (occurrences (StreamClose st) released <= 1)%nat /\
       (dev_raises ext (calls w) (StreamStop st) = false ->
        occurrences (StreamClose st) released = 1%nat)) /\
    (forall pa, pa_instance a = Live pa ->
       occurrences (PaTerminate pa) released = 1%nat).
Proof.
  destruct a as [cfg v rec req [st|] py pa buf]; destruct w as [cs fs];
    unfold stop_stream; run_sys.
  - destruct (dev_raises ext cs (StreamStop st)) eqn:Hstop; cbn.
    + destruct pa as [| |p]; cbn.
      * eexists _, _, [StreamStop st]. stopped_case.
      * eexists _, _, [StreamStop st]. stopped_case.
      * destruct (dev_raises ext (cs ++ [StreamStop st]) (PaTerminate p)); cbn;
          eexists _, _, [StreamStop st; PaTerminate p]; stopped_case.
    + destruct (dev_raises ext (cs ++ [StreamStop st]) (StreamClose st)); cbn;
        destruct pa as [| |p]; cbn;
        try (eexists _, _, [StreamStop st; StreamClose st]; stopped_case);
        destruct (dev_raises ext ((cs ++ [StreamStop st]) ++ [StreamClose st])
                    (PaTerminate p)); cbn;
        eexists _, _, [StreamStop st; StreamClose st; PaTerminate p]; stopped_case.
  - destruct pa as [| |p]; cbn.
    + eexists _, _, []. stopped_case.
    + eexists _, _, []. stopped_case.
    + destruct (dev_raises ext cs (PaTerminate p)); cbn;
        eexists _, _, [PaTerminate p]; stopped_case.
Qed.


(** ** Starting the stream *)

(** When [pa_instance] is not the stale [None] and [terminate] does not
    raise, a failure to start the stream is reported by [False], and
    [capture_audio] turns it into [None]. *)
Lemma start_stream_reports_failure (ext : Externals) (self : AudioInput ext) (w : World) :
  stream self = None ->
  pa_instance self <> IsNone ->
  (forall before pa, dev_raises ext before (PaTerminate pa) = false) ->
  exists b s', start_stream ext (self, w) = (Ret b, s').
Proof.
  intros Hs Hpa Hterm. destruct self as [cfg v rec req st py pa buf]. cbn in Hs, Hpa.
  subst st. destruct w as [cs fs]. unfold start_stream, fresh. run_sys.
  destruct py; cbn; [|eauto].
  destruct (dev_raises ext cs PyAudioNew); cbn.
  { destruct pa as [| |p]; cbn; [eauto | congruence |]. rewrite Hterm. cbn. eauto. }
  destruct (dev_raises ext (cs ++ [PyAudioNew]) (PaOpen _ _)); cbn.
  { rewrite Hterm. cbn. eauto. }
  destruct (dev_raises ext _ (StreamStart _)); cbn.
  { rewrite Hterm. cbn. eauto. }
  eauto.
Qed.

Lemma capture_none_when_start_fails (ext : Externals) (self : AudioInput ext) (w : World)
    (duration : option Q) (wait_for_speech : bool) (feed : Feed) (s' : Sys ext) :
  stream self = None ->
  start_stream ext (self, w) = (Ret false, s') ->
  capture_audio ext duration wait_for_speech feed (self, w) = (Ret None, s').
Proof.
  intros Hs Hstart. unfold capture_audio, bind, on_self, zoom, get. cbn [fst snd].
  rewrite Hs, Hstart. reflexivity.
Qed.

(** C9: the session was started and stopped, which leaves [pa_instance]
    set to [None]; PortAudio then fails to initialise again. The handler of
    [start_stream] calls [terminate] on that [None], and [capture_audio]
    raises instead of returning [None]. *)
Theorem capture_after_stop_raises :
  calls (snd stopped_session)
    = [PyAudioNew; PaOpen 0 false; StreamStart 1; StreamStop 1; StreamClose 1;
       PaTerminate 0] /\
  stream (fst stopped_session) = None /\
  pa_instance (fst stopped_session) = IsNone /\
  fst (capture_audio ext_reinit_fails None true (pull_feed onset_frames) stopped_session)
    = Raise AttributeError.
Proof.
  vm_compute. repeat split.
Qed.

(** ** Saving *)

(** C10: [save_audio] with [None] or empty audio data returns [False] and
    leaves the files as they were; non-empty audio data that the wave
    module writes gives the WAV file (the configured channels, 2 bytes per
    sample, the configured rate, the data) and [True]; [True] is returned,
    and the files change, only for non-empty audio data. *)
Theorem save_audio_needs_data (ext : Externals) (audio_data : option bytes)
    (filename : string) (s : Sys ext) :
  (audio_data = None \/ audio_data = Some [] ->
   save_audio ext audio_data filename s = (Ret false, s)) /\
  (forall data,
     audio_data = Some data -> data <> [] ->
     wave_outcome ext filename (channels (config (fst s)))
       (sample_rate (config (fst s))) data = Written ->
     save_audio ext audio_data filename s
     = (Ret true,
        (fst s,
         {| calls := calls (snd s);
            files :=
              (filename,
               WavFile (channels (config (fst s))) 2 (sample_rate (config (fst s))) data)
                :: files (snd s) |}))) /\
  (forall s',
     save_audio ext audio_data filename s = (Ret true, s') ->
     exists data,
       audio_data = Some data /\ data <> [] /\
       files (snd s') =
         (filename,
          WavFile (channels (config (fst s))) 2 (sample_rate (config (fst s))) data)
           :: files (snd s)) /\
  (files (snd (snd (save_audio ext audio_data filename s))) <> files (snd s) ->
   exists data, audio_data = Some data /\ data <> []).
Proof.
  destruct s as [a w]. split; [|split; [|split]].
  - intros [->| ->]; reflexivity.
  - intros data -> Hdata Hw. destruct data as [|b data]; [congruence|].
    cbn [fst snd] in *. unfold save_audio, wave_write. run_sys.
    rewrite Hw. reflexivity.
  - intros s'. destruct audio_data as [[|b data]|]; cbn; try discriminate.
    unfold save_audio, wave_write. run_sys.
    destruct (wave_outcome ext filename _ _ (b :: data)); cbn; try discriminate.
    intros [= <-]. exists (b :: data). cbn. repeat split. discriminate.
  - destruct audio_data as [[|b data]|]; cbn; try congruence.
    intros _. exists (b :: data). split; [reflexivity | discriminate].
Qed.

Lemma save_audio_needs_data_witness :
  save_audio ext0 (Some quiet_short) "out.wav"
    (AudioInput_init ext0 false true pull_config, world0)
  = (Ret true,
     (AudioInput_init ext0 false true pull_config,
      {| calls := []; files := [("out.wav"%string, WavFile 1 2 16000 quiet_short)] |})).
Proof.
  apply (proj1 (proj2 (save_audio_needs_data ext0 (Some quiet_short) "out.wav"
                         (AudioInput_init ext0 false true pull_config, world0)))
           quiet_short eq_refl).
  - discriminate.
  - reflexivity.
Defined.

(** ** The pull loop, one turn at a time *)

Lemma is_speech_eq (ext : Externals) (v : VoiceActivityDetector ext) (f : bytes) :
  is_speech ext f None v = (Ret (verdict ext v f), vad_after ext v f).
Proof.
  unfold verdict, vad_after.
  destruct (is_speech_verdict ext v f None) as (b & v' & Hrun & _).
  rewrite Hrun. reflexivity.
Qed.

Lemma py_div_nonzero (a : Q) (z : Z) :
  z <> 0 -> py_div a (inject_Z z) = Done (a / inject_Z z)%Q.
Proof.
  intros Hz. unfold py_div.
  destruct (Qeq_bool (inject_Z z) 0) eqn:E; [|reflexivity].
  apply Qeq_bool_iff in E. unfold Qeq in E. cbn in E. lia.
Qed.

Lemma py_slice_from_nil {A} (i : Z) : py_slice_from i (@nil A) = [].
Proof. unfold py_slice_from. now rewrite skipn_nil. Qed.

Ltac run_turn :=
  unfold manual_body, loop_vad, locals, set_locals, try_catch, bind, call, zoom, ret;
  cbn [fst snd]; rewrite is_speech_eq; cbn [fst snd speech_detected frames silence_frames].

Section PullTurn.

Variable ext : Externals.
Variable cfg : AudioConfig.
Variable max_frames : option Z.

Lemma body_read_error (e : exn) (s : Loop ext) :
  manual_body ext cfg max_frames (Thrown e) s = (Ret true, s).
Proof. reflexivity. Qed.

Lemma body_waiting_quiet (v : VoiceActivityDetector ext) (l : manual_locals) (data : bytes) :
  speech_detected l = false ->
  verdict ext v data = false ->
  manual_body ext cfg max_frames (Done data) (v, l)
    = (Ret (at_frame_limit max_frames (frames l)), (vad_after ext v data, l)).
Proof.
  intros Hsd Hq. run_turn. rewrite Hq, Hsd. cbn. rewrite Hsd. reflexivity.
Qed.

Lemma body_onset (v : VoiceActivityDetector ext) (l : manual_locals) (data : bytes) :
  speech_detected l = false ->
  frames l = [] ->
  verdict ext v data = true ->
  chunk_size cfg <> 0 ->
  sample_rate cfg <> 0 ->
  manual_body ext cfg max_frames (Done data) (v, l)
    = (Ret (Qgtb (inject_Z (0 * chunk_size cfg) / inject_Z (sample_rate cfg))
                 (speech_pad_end cfg)
            || at_frame_limit max_frames [data]),
       (vad_after ext v data, mkLocals [data] true 0)).
Proof.
  intros Hsd Hfr Hsp Hc Hr. run_turn. rewrite Hsp, Hsd. cbn.
  rewrite (py_div_nonzero _ _ Hc). cbn.
  rewrite Hfr, py_slice_from_nil. cbn.
  rewrite (py_div_nonzero _ _ Hr). cbn.
  destruct (Qgtb _ _); reflexivity.
Qed.

Lemma body_capturing (v : VoiceActivityDetector ext) (l : manual_locals) (data : bytes) :
  speech_detected l = true ->
  sample_rate cfg <> 0 ->
  let sil := if negb (verdict ext v data) then silence_frames l + 1 else 0 in
  manual_body ext cfg max_frames (Done data) (v, l)
    = (Ret (Qgtb (inject_Z (sil * chunk_size cfg) / inject_Z (sample_rate cfg))
                 (speech_pad_end cfg)
            || at_frame_limit max_frames (frames l ++ [data])),
       (vad_after ext v data, mkLocals (frames l ++ [data]) true sil)).
Proof.
  intros Hsd Hr. run_turn. rewrite Hsd. cbn. rewrite Hsd.
  rewrite (py_div_nonzero _ _ Hr). cbn.
  destruct (Qgtb _ _); reflexivity.
Qed.

End PullTurn.

(** ** Verdicts along a feed *)

Lemma vad_run_app (ext : Externals) (v : VoiceActivityDetector ext) (a b : list bytes) :
  vad_run ext v (a ++ b) = vad_run ext (vad_run ext v a) b.
Proof. apply fold_left_app. Qed.

Lemma labels_app (ext : Externals) (a b : list bytes) :
  forall v, labels ext v (a ++ b) = labels ext v a ++ labels ext (vad_run ext v a) b.
Proof.
  induction a as [|f a IH]; intros v; cbn; [reflexivity|].
  now rewrite IH.
Qed.

Lemma labels_length (ext : Externals) (fs : list bytes) :
  forall v, length (labels ext v fs) = length fs.
Proof. induction fs as [|f fs IH]; intros v; cbn; [reflexivity|]. now rewrite IH. Qed.

Lemma labels_firstn (ext : Externals) (n : nat) :
  forall fs v, labels ext v (firstn n fs) = firstn n (labels ext v fs).
Proof.
  induction n as [|n IH]; intros [|f fs] v; cbn; try reflexivity.
  now rewrite IH.
Qed.


Lemma skipn_snoc {A} (k : nat) (l : list A) (x : A) :
  (k <= length l)%nat -> skipn k (l ++ [x]) = skipn k l ++ [x].
Proof.
  intros Hk. rewrite skipn_app.
  replace (k - length l)%nat with O by lia. reflexivity.
Qed.


(** ** Lead-in padding *)

(** C1: in pull mode the loud frame is the third one read and
    [speech_pad_start] is worth one frame, yet the utterance starts at the
    loud frame: the quiet frame before it is not in the buffer. *)
Theorem pull_capture_has_no_lead_in :
  labels ext0 (VoiceActivityDetector_init ext0 false pull_config) onset_frames
    = [false; false; true; false; false; false; false; false] /\
  Qfloor (speech_pad_start pull_config / frame_duration pull_config) = 1 /\
  fst (capture_audio ext0 None true (pull_feed onset_frames)
         (AudioInput_init ext0 false true pull_config, world0))
    = Ret (Some (join [loud; quiet0; quiet1; quiet2; quiet0])).
Proof.
  split; [|split]; vm_compute; reflexivity.
Qed.

(** ** The endpointing bound of the pull loop *)

Section Endpointing.

Variable ext : Externals.
Variable cfg : AudioConfig.
Variable max_frames : option Z.
Variable start_time : Q.
Variable v0 : VoiceActivityDetector ext.

Hypothesis rate_pos : 0 < sample_rate cfg.
Hypothesis chunk_pos : 0 < chunk_size cfg.
Hypothesis pad_nonneg : (0 <= speech_pad_end cfg)%Q.





End Endpointing.




(** ** The frame limit of the pull loop *)

Lemma firstn_length_firstn {A} (j : nat) (l : list A) :
  firstn (length (firstn j l)) l = firstn j l.
Proof.
  rewrite length_firstn. destruct (Nat.le_ge_cases j (length l)) as [H|H].
  - now rewrite Nat.min_l.
  - rewrite Nat.min_r by exact H. now rewrite firstn_all, firstn_all2.
Qed.

Lemma Qle_Qgtb_false (a b : Q) : (a <= b)%Q -> Qgtb a b = false.
Proof.
  intros H. unfold Qgtb. apply negb_false_iff, Qle_bool_iff, H.
Qed.

Section FrameLimit.

Variable ext : Externals.
Variable cfg : AudioConfig.
Variable m : Z.
Variable start_time : Q.

Hypothesis limit_pos : 0 < m.
Hypothesis rate_nonzero : sample_rate cfg <> 0.

Lemma at_limit_iff {A} (l : list A) :
  at_frame_limit (Some m) l = true <-> m <= Z.of_nat (length l).
Proof.
  unfold at_frame_limit. rewrite andb_true_iff, negb_true_iff, Z.eqb_neq, Z.leb_le.
  split; [tauto | lia].
Qed.

Lemma pull_limit_prefix (ticks : list pull_tick) :
  forall (pre : list bytes) (v : VoiceActivityDetector ext) (l : manual_locals)
         (s' : Loop ext),
    speech_detected l = true ->
    frames l = pre ->
    Z.of_nat (length pre) < m ->
    manual_loop ext cfg (Some m) start_time ticks (v, l) = (Ret tt, s') ->
    exists j,
      frames (snd s') = pre ++ firstn j (reads ticks) /\
      Z.of_nat (length (frames (snd s'))) <= m.
Proof.
  induction ticks as [|tk rest IH]; intros pre v l s' Hsd Hfr Hlen Hrun.
  - discriminate Hrun.
  - cbn [manual_loop] in Hrun.
    destruct (Qgtb (pull_now tk - start_time) (timeout cfg)).
    { injection Hrun as <-. exists O. cbn. rewrite app_nil_r. split; [exact Hfr|]. rewrite Hfr. lia. }
    unfold bind in Hrun.
    destruct (pull_read tk) as [data|e] eqn:Hread.
    2:{ rewrite body_read_error in Hrun. injection Hrun as <-.
        exists O. cbn. rewrite app_nil_r. split; [exact Hfr|]. rewrite Hfr. lia. }
    assert (Hreads : reads (tk :: rest) = data :: reads rest).
    { unfold reads. cbn. rewrite Hread. reflexivity. }
    rewrite Hreads.
    rewrite (body_capturing ext cfg (Some m) v l data Hsd rate_nonzero), Hfr in Hrun.
    destruct (Qgtb _ _ || at_frame_limit (Some m) (pre ++ [data])) eqn:Hleave.
    + injection Hrun as <-. exists 1%nat. cbn. split; [reflexivity|].
      rewrite length_app. cbn. lia.
    + apply orb_false_iff in Hleave as [_ Hlim].
      assert (Hlen' : Z.of_nat (length (pre ++ [data])) < m).
      { destruct (Z.lt_ge_cases (Z.of_nat (length (pre ++ [data]))) m) as [H|H]; [exact H|].
        apply at_limit_iff in H. congruence. }
      destruct (IH (pre ++ [data]) _ (mkLocals (pre ++ [data]) true _) s'
                  eq_refl eq_refl Hlen' Hrun) as (j & Hj & Hb).
      exists (S j). cbn [firstn]. rewrite <- app_assoc in Hj. split; [exact Hj | exact Hb].
Qed.

Hypothesis pad_nonneg : (0 <= speech_pad_end cfg)%Q.

Lemma pull_limit_exact (rem : nat) :
  forall (ticks : list pull_tick) (pre : list bytes) (v : VoiceActivityDetector ext)
         (l : manual_locals),
    speech_detected l = true ->
    frames l = pre ->
    Z.of_nat (length pre + S rem) = m ->
    (S rem <= length ticks)%nat ->
    Forall (served cfg start_time) (firstn (S rem) ticks) ->
    labels ext v (firstn (S rem) (reads ticks)) = repeat true (S rem) ->
    exists v' sil,
      manual_loop ext cfg (Some m) start_time ticks (v, l)
        = (Ret tt, (v', mkLocals (pre ++ firstn (S rem) (reads ticks)) true sil)).
Proof.
  induction rem as [|rem IH]; intros [|tk rest] pre v l Hsd Hfr Hm Hlen Hserved Hlab;
    try (cbn in Hlen; lia).
  all: cbn [firstn] in Hserved; apply Forall_cons_iff in Hserved as [[Htime [d Hread]] Hrest].
  all: assert (Hreads : reads (tk :: rest) = d :: reads rest)
         by (unfold reads; cbn; rewrite Hread; reflexivity).
  all: rewrite Hreads in *; cbn [firstn labels repeat] in Hlab.
  all: assert (Hsp : verdict ext v d = true) by (injection Hlab; auto).
  all: cbn [manual_loop]; rewrite (Qle_Qgtb_false _ _ Htime); unfold bind.
  all: rewrite Hread, (body_capturing ext cfg (Some m) v l d Hsd rate_nonzero), Hsp, Hfr.
  all: cbn [negb].
  all: assert (Hq : Qgtb (inject_Z (0 * chunk_size cfg) / inject_Z (sample_rate cfg))
                      (speech_pad_end cfg) = false)
         by (apply Qle_Qgtb_false; cbn; unfold Qdiv; rewrite Qmult_0_l; exact pad_nonneg).
  all: rewrite Hq; cbn [orb].
  - assert (Hlim : at_frame_limit (Some m) (pre ++ [d]) = true).
    { apply at_limit_iff. rewrite length_app. cbn. lia. }
    rewrite Hlim. eexists _, _. reflexivity.
  - assert (Hlim : at_frame_limit (Some m) (pre ++ [d]) = false).
    { destruct (at_frame_limit (Some m) (pre ++ [d])) eqn:E; [|reflexivity].
      apply at_limit_iff in E. rewrite length_app in E. cbn in E. lia. }
    rewrite Hlim.
    destruct (IH rest (pre ++ [d]) (vad_after ext v d) (mkLocals (pre ++ [d]) true 0))
      as (v' & sil & Hrun); try reflexivity.
    + rewrite length_app. cbn. lia.
    + cbn in Hlen. lia.
    + exact Hrest.
    + injection Hlab; auto.
    + rewrite Hrun. exists v', sil. rewrite <- app_assoc. reflexivity.
Qed.

End FrameLimit.

(** C3, amended: in pull mode with wait_for_speech=false and a positive
    frame limit (the one derived from the duration), the returned buffer is
    made of the first n frames read, for some n that does not exceed the
    limit; when the device keeps supplying frames, n is exactly the limit
    provided the frames up to the limit are all classified Speech and are
    read before the timeout. *)
Theorem pull_frame_limit (ext : Externals) (self : AudioInput ext) (m : Z)
    (start_time : Q) (ticks : list pull_tick) :
  0 < m ->
  sample_rate (config self) <> 0 ->
  (forall r self',
     _capture_manual ext (Some m) false start_time ticks self = (Ret r, self') ->
     exists n,
       Z.of_nat n <= m /\
       r = match firstn n (reads ticks) with
           | [] => None
           | fs => Some (join fs)
           end) /\
  ((Z.to_nat m <= length ticks)%nat ->
   Forall (served (config self) start_time) (firstn (Z.to_nat m) ticks) ->
   labels ext (vad self) (firstn (Z.to_nat m) (reads ticks)) = repeat true (Z.to_nat m) ->
   (0 <= speech_pad_end (config self))%Q ->
   fst (_capture_manual ext (Some m) false start_time ticks self)
     = Ret (Some (join (firstn (Z.to_nat m) (reads ticks))))).
Proof.
  intros Hm Hr. split.
  - intros r self' Hrun. unfold _capture_manual in Hrun.
    destruct (manual_loop ext (config self) (Some m) start_time ticks
                (vad self, mkLocals [] (negb false) 0))
      as [[[]|e|] [v l]] eqn:Hloop; try discriminate.
    destruct (pull_limit_prefix ext (config self) m start_time Hm Hr ticks []
                (vad self) (mkLocals [] (negb false) 0) (v, l)
                eq_refl eq_refl Hm Hloop) as (j & Hfs & Hb).
    cbn [app snd] in Hfs, Hb.
    exists (length (frames l)). split; [exact Hb|].
    injection Hrun as <- _.
    assert (E : firstn (length (frames l)) (reads ticks) = frames l).
    { rewrite Hfs. apply firstn_length_firstn. }
    rewrite E. destruct (frames l); reflexivity.
  - intros Hlen Hserved Hlab Hp.
    destruct (Z.to_nat m) as [|rem] eqn:Hrem; [lia|].
    destruct (pull_limit_exact ext (config self) m start_time Hm Hr Hp rem ticks []
                (vad self) (mkLocals [] (negb false) 0)) as (v' & sil & Hrun);
      try reflexivity; try assumption.
    + cbn. lia.
    + unfold _capture_manual. rewrite Hrun. cbn [app frames fst].
      destruct (firstn (S rem) (reads ticks)) eqn:E; [|reflexivity].
      discriminate Hlab.
Qed.

Lemma pull_frame_limit_witness :
  fst (_capture_manual ext0 (Some 15) false 0 (pull_feed_from 0 (repeat loud 16))
         (AudioInput_init ext0 false true pull_config))
    = Ret (Some (join (firstn (Z.to_nat 15) (reads (pull_feed_from 0 (repeat loud 16)))))).
Proof.
  apply (proj2 (pull_frame_limit ext0 (AudioInput_init ext0 false true pull_config) 15 0
                  (pull_feed_from 0 (repeat loud 16)) eq_refl
                  ltac:(vm_compute; discriminate))).
  - vm_compute. repeat constructor.
  - change (Z.to_nat 15) with 15%nat. cbn [repeat pull_feed_from firstn].
    repeat (constructor; [split; [vm_compute; discriminate | eexists; reflexivity]|]).
    constructor.
  - vm_compute. reflexivity.
  - vm_compute. discriminate.
Defined.

(** C3 as stated fails: with duration 0.5 s the same device yields four
    frames when the frames are quiet and fifteen when they are loud, so the
    count depends on the verdicts, and neither is 0.5 * 16000 / 1024. *)
Lemma frame_count_follows_verdicts :
  fst (capture_audio ext0 (Some 0.5%Q) false (pull_feed (repeat quiet0 16))
         (AudioInput_init ext0 false true pull_config, world0))
    = Ret (Some (join (repeat quiet0 4))) /\
  fst (capture_audio ext0 (Some 0.5%Q) false (pull_feed (repeat loud 16))
         (AudioInput_init ext0 false true pull_config, world0))
    = Ret (Some (join (repeat loud 15))) /\
  (0.5 * inject_Z (sample_rate pull_config) / inject_Z (chunk_size pull_config)
   == 7.8125)%Q.
Proof.
  repeat split; vm_compute; reflexivity.
Qed.

(** ** Timeout without speech *)

(** The pull loop, unlike the push loop, returns [None] when the timeout
    passes without a Speech verdict. *)
Lemma pull_timeout_without_speech (ext : Externals) (cfg : AudioConfig)
    (max_frames : option Z) (start_time : Q) (ticks : list pull_tick) :
  forall v : VoiceActivityDetector ext,
    Forall (fun b => b = false) (labels ext v (reads ticks)) ->
    Exists (fun tk => Qgtb (pull_now tk - start_time) (timeout cfg) = true) ticks ->
    exists v',
      manual_loop ext cfg max_frames start_time ticks (v, mkLocals [] false 0)
        = (Ret tt, (v', mkLocals [] false 0)).
Proof.
  induction ticks as [|tk rest IH]; intros v Hq Hlate.
  - inversion Hlate.
  - cbn [manual_loop].
    destruct (Qgtb (pull_now tk - start_time) (timeout cfg)) eqn:Hnow.
    { exists v. reflexivity. }
    apply Exists_cons in Hlate as [Hlate|Hlate]; [congruence|].
    unfold bind. destruct (pull_read tk) as [data|e] eqn:Hread.
    + assert (Hreads : reads (tk :: rest) = data :: reads rest).
      { unfold reads. cbn. rewrite Hread. reflexivity. }
      rewrite Hreads in Hq. cbn [labels] in Hq.
      apply Forall_cons_iff in Hq as [Hd Hq].
      rewrite (body_waiting_quiet ext cfg max_frames v (mkLocals [] false 0) data
                 eq_refl Hd).
      cbn [frames]. destruct (at_frame_limit max_frames []).
      * eexists. reflexivity.
      * apply IH; assumption.
    + rewrite body_read_error. eexists. reflexivity.
Qed.

Lemma pull_capture_none_without_speech (ext : Externals) (self : AudioInput ext)
    (max_frames : option Z) (start_time : Q) (ticks : list pull_tick) :
  Forall (fun b => b = false) (labels ext (vad self) (reads ticks)) ->
  Exists (fun tk => Qgtb (pull_now tk - start_time) (timeout (config self)) = true) ticks ->
  fst (_capture_manual ext max_frames true start_time ticks self) = Ret None.
Proof.
  intros Hq Hlate.
  destruct (pull_timeout_without_speech ext (config self) max_frames start_time ticks
              (vad self) Hq Hlate) as (v' & Hrun).
  unfold _capture_manual. cbn [negb]. rewrite Hrun. reflexivity.
Qed.

(** C2: in push mode the callback stores every frame while the stream is
    recording, so a capture that times out without any Speech verdict
    returns the quiet audio; the pull loop returns [None] on the same
    frames. *)
Theorem push_timeout_returns_quiet_audio :
  labels ext0 (VoiceActivityDetector_init ext0 false quick_push_config) [quiet1; quiet1]
    = [false; false] /\
  fst (capture_audio ext0 None true quiet_push_feed
         (AudioInput_init ext0 false true quick_push_config, world0))
    = Ret (Some quiet1) /\
  fst (_capture_manual ext0 None true 0
         [mkPull 0 (Done quiet1); mkPull 0.11 (Done quiet1)]
         (AudioInput_init ext0 false true quick_push_config))
    = Ret None.
Proof.
  split; [|split]; vm_compute; reflexivity.
Qed.

(** * Further properties of the code *)

(** ** The adaptive floor *)

Lemma is_speech_without_detector (ext : Externals) (v : VoiceActivityDetector ext)
    (frame : bytes) (sr : option Z) :
  _vad v = None -> is_speech ext frame sr v = _is_speech_energy ext frame v.
Proof.
  intros Hv. unfold is_speech. run_monad. rewrite Hv. reflexivity.
Qed.





Section AmbientFloor.

Variable ext : Externals.
Variable v : VoiceActivityDetector ext.
Variable e : Q.

Hypothesis no_detector : _vad v = None.
Hypothesis dynamic : _dynamic_threshold v = true.
Hypothesis energy_nonneg : (0 <= e)%Q.
Hypothesis energy_below : (e < _energy_threshold v)%Q.



End AmbientFloor.



Lemma is_speech_total_fallback_cases (ext : Externals) (v : VoiceActivityDetector ext)
    (frame : bytes) (sr : option Z) :
  (_vad v = None -> is_speech ext frame sr v = _is_speech_energy ext frame v) /\
  (forall d e d',
     _vad v = Some d ->
     webrtc_is_speech ext d frame (rate_for v sr) = (Thrown e, d') ->
     is_speech ext frame sr v = _is_speech_energy ext frame (set_vad (Some d') v)).
Proof.
  split.
  - apply is_speech_without_detector.
  - intros d e d' Hv Hw. unfold is_speech. run_monad. rewrite Hv.
    unfold rate_for in Hw. rewrite Hw. reflexivity.
Qed.

(** ** The energy of 16-bit frames *)







(** ** What classification leaves alone *)

Lemma energy_keeps_settings (ext : Externals) (v : VoiceActivityDetector ext)
    (frame : bytes) :
  let v' := snd (_is_speech_energy ext frame v) in
  v_config v' = v_config v /\
  _dynamic_threshold v' = _dynamic_threshold v /\
  _vad v' = _vad v /\
  (_dynamic_threshold v = false -> _energy_threshold v' = _energy_threshold v).
Proof.
  destruct (frombuffer (dtype_of (v_config v)) frame) as [arr|e] eqn:Hf.
  2:{ rewrite (energy_undecodable ext v frame e Hf). cbn. auto. }
  destruct (pf_lt (rms ext (dtype_of (v_config v)) arr) (_energy_threshold v)) eqn:Hlt.
  2:{ rewrite (energy_keep ext v frame arr Hf Hlt). cbn. auto. }
  destruct (_dynamic_threshold v) eqn:Hd.
  2:{ rewrite (energy_static ext v frame arr Hf Hd). cbn. auto. }
  destruct (pf_lt_fin _ _ Hlt) as (q & Hq & Hqt).
  rewrite (energy_update ext v frame arr q Hf Hd Hq Hqt). cbn.
  repeat split; auto. discriminate.
Qed.

Lemma is_speech_keeps_settings (ext : Externals) (v : VoiceActivityDetector ext)
    (frame : bytes) (sr : option Z) :
  let v' := snd (is_speech ext frame sr v) in
  v_config v' = v_config v /\
  _dynamic_threshold v' = _dynamic_threshold v /\
  (_vad v' = None <-> _vad v = None) /\
  (_dynamic_threshold v = false -> _energy_threshold v' = _energy_threshold v).
Proof.
  destruct (is_speech_total_fallback_cases ext v frame sr) as [Hnone Hfall].
  destruct (_vad v) as [d|] eqn:Hv.
  - destruct (webrtc_is_speech ext d frame (rate_for v sr)) as [[b|e] d'] eqn:Hw.
    + unfold is_speech. run_monad. rewrite Hv. unfold rate_for in Hw. rewrite Hw. cbn.
      repeat split; auto; discriminate.
    + rewrite (Hfall d e d' eq_refl Hw).
      destruct (energy_keeps_settings ext (set_vad (Some d') v) frame) as (H1 & H2 & H3 & H4).
      cbn in *. rewrite H1, H2, H3. repeat split; auto; discriminate.
  - rewrite (Hnone eq_refl).
    destruct (energy_keeps_settings ext v frame) as (H1 & H2 & H3 & H4).
    cbn in *. rewrite H1, H2, H3, Hv. repeat split; auto.
Qed.

(** X3: classification never touches the detector's configuration or its
    dynamic flag, and never drops or installs the WebRTC detector (one that
    fails is tried again on the next frame); with dynamic_silence off the
    floor stays at the configured silence_threshold for ever. *)
Theorem classification_keeps_settings (ext : Externals) (have_webrtc : bool)
    (cfg : AudioConfig) (v : VoiceActivityDetector ext) :
  vad_reachable ext have_webrtc cfg v ->
  v_config v = cfg /\
  _dynamic_threshold v = dynamic_silence cfg /\
  (_vad v = None <-> have_webrtc = false) /\
  (dynamic_silence cfg = false -> _energy_threshold v = silence_threshold cfg).
Proof.
  induction 1 as [|v frame sr Hreach (IH1 & IH2 & IH3 & IH4)].
  - cbn. repeat split; auto; destruct have_webrtc; congruence.
  - destruct (is_speech_keeps_settings ext v frame sr) as (H1 & H2 & H3 & H4).
    cbv zeta in *. rewrite H1, H2, H3. repeat split; auto; try tauto.
    intros Hd. rewrite H4; [auto | congruence].
Qed.

Lemma classification_keeps_settings_witness :
  v_config (snd (is_speech ext0 loud None
                   (VoiceActivityDetector_init ext0 false short_push_config)))
    = short_push_config /\
  _dynamic_threshold (snd (is_speech ext0 loud None
                   (VoiceActivityDetector_init ext0 false short_push_config)))
    = dynamic_silence short_push_config /\
  (_vad (snd (is_speech ext0 loud None
                (VoiceActivityDetector_init ext0 false short_push_config))) = None
   <-> false = false) /\
  (dynamic_silence short_push_config = false ->
   _energy_threshold (snd (is_speech ext0 loud None
                   (VoiceActivityDetector_init ext0 false short_push_config)))
   = silence_threshold short_push_config).
Proof.
  apply (classification_keeps_settings ext0 false short_push_config).
  apply reach_step, reach_init.
Defined.

(** ** Starting, restarting and stopping *)

(** X4: when PortAudio raises nothing, [start_stream] on a closed session
    succeeds and a following [stop_stream] releases exactly what was
    acquired: the log grows by PyAudio(), open, start, stop, close,
    terminate on the two fresh handles, and the session is closed again. *)
Theorem start_then_stop_is_balanced (ext : Externals) (self : AudioInput ext) (w : World) :
  quiet_device ext ->
  pyaudio self = true ->
  stream self = None ->
  let pa := length (calls w) in
  let st := S (length (calls w)) in
  let s1 := snd (start_stream ext (self, w)) in
  let s2 := snd (stop_stream ext s1) in
  fst (start_stream ext (self, w)) = Ret true /\
  stream (fst s1) = Some st /\
  pa_instance (fst s1) = Live pa /\
  is_recording (fst s1) = true /\
  stop_requested (fst s1) = false /\
  calls (snd s2)
    = calls w ++ [PyAudioNew; PaOpen pa (vad_enabled (config self)); StreamStart st;
                  StreamStop st; StreamClose st; PaTerminate pa] /\
  stream (fst s2) = None /\
  pa_instance (fst s2) = IsNone /\
  is_recording (fst s2) = false.
Proof.
  intros Hq Hpy Hs. destruct self as [cfg v rec req st0 py pa0 buf]. destruct w as [cs fs].
  cbn in Hpy, Hs. subst py st0.
  unfold start_stream, stop_stream, fresh. run_sys.
  repeat (rewrite Hq; cbn).
  rewrite !length_app. cbn. rewrite Nat.add_1_r, <- !app_assoc. cbn.
  repeat (rewrite Hq; cbn). rewrite <- ?app_assoc. cbn.
  repeat split.
Qed.

Lemma ext0_quiet : quiet_device ext0.
Proof. intros before c. reflexivity. Qed.

Lemma start_then_stop_is_balanced_witness :
  fst (start_stream ext0 (AudioInput_init ext0 false true pull_config, world0)) = Ret true /\
  calls (snd (snd (stop_stream ext0
                     (snd (start_stream ext0
                             (AudioInput_init ext0 false true pull_config, world0))))))
    = [PyAudioNew; PaOpen 0 false; StreamStart 1; StreamStop 1; StreamClose 1;
       PaTerminate 0].
Proof.
  pose proof (start_then_stop_is_balanced ext0
                (AudioInput_init ext0 false true pull_config) world0
                ext0_quiet eq_refl eq_refl) as H.
  cbv zeta in H. destruct H as (H1 & _ & _ & _ & _ & H6 & _).
  split; [exact H1 | exact H6].
Defined.

(** X5: when PortAudio raises nothing, [start_stream] on a session whose
    stream is running first stops and closes that stream and terminates its
    instance, and only then creates the new instance, opens and starts the
    new stream. *)
Theorem restart_releases_before_acquiring (ext : Externals) (self : AudioInput ext)
    (w : World) (st0 pa0 : nat) :
  quiet_device ext ->
  pyaudio self = true ->
  stream self = Some st0 ->
  pa_instance self = Live pa0 ->
  let pa := (length (calls w) + 3)%nat in
  let st := (length (calls w) + 4)%nat in
  let s1 := snd (start_stream ext (self, w)) in
  fst (start_stream ext (self, w)) = Ret true /\
  calls (snd s1)
    = calls w ++ [StreamStop st0; StreamClose st0; PaTerminate pa0;
                  PyAudioNew; PaOpen pa (vad_enabled (config self)); StreamStart st] /\
  stream (fst s1) = Some st /\
  pa_instance (fst s1) = Live pa /\
  is_recording (fst s1) = true /\
  stop_requested (fst s1) = false.
Proof.
  intros Hq Hpy Hs Hpa. destruct self as [cfg v rec req st1 py pa1 buf]. destruct w as [cs fs].
  cbn in Hpy, Hs, Hpa. subst py st1 pa1.
  unfold start_stream, stop_stream, fresh. run_sys.
  repeat (rewrite Hq; cbn).
  rewrite !length_app. cbn. rewrite <- !app_assoc. cbn.
  repeat (rewrite Hq; cbn). rewrite <- ?app_assoc. cbn.
  replace (length cs + 1 + 1 + 1 + 1)%nat with (length cs + 4)%nat by lia.
  replace (length cs + 1 + 1 + 1)%nat with (length cs + 3)%nat by lia.
  repeat split.
Qed.

Lemma restart_releases_before_acquiring_witness :
  calls (snd (snd (start_stream ext0
                     (snd (start_stream ext0
                             (AudioInput_init ext0 false true pull_config, world0))))))
    = [PyAudioNew; PaOpen 0 false; StreamStart 1] ++
      [StreamStop 1; StreamClose 1; PaTerminate 0;
       PyAudioNew; PaOpen 6 false; StreamStart 7].
Proof.
  pose proof (restart_releases_before_acquiring ext0
                (fst (snd (start_stream ext0
                             (AudioInput_init ext0 false true pull_config, world0))))
                (snd (snd (start_stream ext0
                             (AudioInput_init ext0 false true pull_config, world0))))
                1 0 ext0_quiet eq_refl eq_refl eq_refl) as H.
  cbv zeta in H. destruct H as (_ & H2 & _). exact H2.
Defined.

(** X6: when [open] raises on a fresh instance, [start_stream] terminates
    that instance, clears [stream] and returns [False], but keeps the
    instance in [pa_instance]; a following [stop_stream] therefore
    terminates the same instance a second time. *)
Theorem failed_open_is_terminated_twice (ext : Externals) (self : AudioInput ext)
    (w : World) :
  pyaudio self = true ->
  stream self = None ->
  dev_raises ext (calls w) PyAudioNew = false ->
  dev_raises ext (calls w ++ [PyAudioNew])
    (PaOpen (length (calls w)) (vad_enabled (config self))) = true ->
  (forall before p, dev_raises ext before (PaTerminate p) = false) ->
  let pa := length (calls w) in
  let s1 := snd (start_stream ext (self, w)) in
  let s2 := snd (stop_stream ext s1) in
  fst (start_stream ext (self, w)) = Ret false /\
  stream (fst s1) = None /\
  pa_instance (fst s1) = Live pa /\
  is_recording (fst s1) = is_recording self /\
  calls (snd s1)
    = calls w ++ [PyAudioNew; PaOpen pa (vad_enabled (config self)); PaTerminate pa] /\
  calls (snd s2)
    = calls w ++ [PyAudioNew; PaOpen pa (vad_enabled (config self)); PaTerminate pa;
                  PaTerminate pa].
Proof.
  intros Hpy Hs Hnew Hopen Hterm.
  destruct self as [cfg v rec req st1 py pa1 buf]. destruct w as [cs fs].
  cbn in Hpy, Hs, Hnew, Hopen. subst py st1.
  unfold start_stream, stop_stream, fresh. run_sys.
  rewrite Hnew. cbn. rewrite length_app. cbn. rewrite Hopen. cbn.
  repeat (rewrite Hterm; cbn). rewrite <- !app_assoc. cbn.
  repeat split.
Qed.

Lemma failed_open_is_terminated_twice_witness :
  fst (start_stream ext_no_device
         (AudioInput_init ext_no_device false true pull_config, world0)) = Ret false /\
  calls (snd (snd (stop_stream ext_no_device
                     (snd (start_stream ext_no_device
                             (AudioInput_init ext_no_device false true pull_config,
                              world0))))))
    = [PyAudioNew; PaOpen 0 false; PaTerminate 0; PaTerminate 0].
Proof.
  pose proof (failed_open_is_terminated_twice ext_no_device
                (AudioInput_init ext_no_device false true pull_config) world0
                eq_refl eq_refl eq_refl eq_refl (fun _ _ => eq_refl)) as H.
  cbv zeta in H. destruct H as (H1 & _ & _ & _ & _ & H6).
  split; [exact H1 | exact H6].
Defined.

(** X7: when the opened stream fails to start, [start_stream] terminates
    the instance, clears [stream] and returns [False]; it never closes the
    stream it had opened, and [is_recording] is left set. *)
Theorem failed_start_leaves_stream_unclosed (ext : Externals) (self : AudioInput ext)
    (w : World) :
  pyaudio self = true ->
  stream self = None ->
  dev_raises ext (calls w) PyAudioNew = false ->
  dev_raises ext (calls w ++ [PyAudioNew])
    (PaOpen (length (calls w)) (vad_enabled (config self))) = false ->
  dev_raises ext
    (calls w ++ [PyAudioNew; PaOpen (length (calls w)) (vad_enabled (config self))])
    (StreamStart (S (length (calls w)))) = true ->
  (forall before p, dev_raises ext before (PaTerminate p) = false) ->
  let pa := length (calls w) in
  let st := S (length (calls w)) in
  let s1 := snd (start_stream ext (self, w)) in
  fst (start_stream ext (self, w)) = Ret false /\
  stream (fst s1) = None /\
  is_recording (fst s1) = true /\
  calls (snd s1)
    = calls w ++ [PyAudioNew; PaOpen pa (vad_enabled (config self)); StreamStart st;
                  PaTerminate pa] /\
  occurrences (StreamClose st) (calls (snd s1)) = occurrences (StreamClose st) (calls w).
Proof.
  intros Hpy Hs Hnew Hopen Hstart Hterm.
  destruct self as [cfg v rec req st1 py pa1 buf]. destruct w as [cs fs].
  cbn in Hpy, Hs, Hnew, Hopen, Hstart. subst py st1.
  unfold start_stream, fresh. run_sys.
  rewrite Hnew. cbn. rewrite length_app. cbn. rewrite Hopen. cbn.
  rewrite Nat.add_1_r, <- !app_assoc. cbn. rewrite Hstart. cbn.
  repeat (rewrite Hterm; cbn). rewrite <- !app_assoc. cbn.
  repeat split.
  rewrite filter_app, length_app. cbn. lia.
Qed.

Lemma failed_start_leaves_stream_unclosed_witness :
  fst (start_stream ext_no_start
         (AudioInput_init ext_no_start false true pull_config, world0)) = Ret false /\
  calls (snd (snd (start_stream ext_no_start
                     (AudioInput_init ext_no_start false true pull_config, world0))))
    = [PyAudioNew; PaOpen 0 false; StreamStart 1; PaTerminate 0].
Proof.
  pose proof (failed_start_leaves_stream_unclosed ext_no_start
                (AudioInput_init ext_no_start false true pull_config) world0
                eq_refl eq_refl eq_refl eq_refl eq_refl (fun _ _ => eq_refl)) as H.
  cbv zeta in H. destruct H as (H1 & _ & _ & H4 & _).
  split; [exact H1 | exact H4].
Defined.

(** ** The pull loop: exceptions, timeout and read errors *)

(** One turn of the pull loop ends normally whatever the read, the
    detector or the configuration do: every exception of the [try] block
    leaves the loop. *)
Lemma manual_body_returns (ext : Externals) (cfg : AudioConfig) (max_frames : option Z)
    (rd : outcome bytes) (s : Loop ext) :
  exists leave s', manual_body ext cfg max_frames rd s = (Ret leave, s').
Proof.
  destruct s as [v l]. destruct rd as [data|e]; [|rewrite body_read_error; eauto].
  run_turn.
  destruct (speech_detected l) eqn:Hsd; cbn.
  - rewrite Hsd. cbn.
    destruct (py_div _ (inject_Z (sample_rate cfg))) as [q|e]; cbn; [|eauto].
    destruct (Qgtb q (speech_pad_end cfg)); eauto.
  - destruct (verdict ext v data); cbn.
    + destruct (py_div _ (inject_Z (chunk_size cfg))) as [n|e]; cbn; [|eauto].
      destruct (py_div _ (inject_Z (sample_rate cfg))) as [q|e]; cbn; [|eauto].
      destruct (Qgtb q (speech_pad_end cfg)); eauto.
    + rewrite Hsd. eauto.
Qed.

Lemma manual_loop_returns (ext : Externals) (cfg : AudioConfig) (max_frames : option Z)
    (start_time : Q) (ticks : list pull_tick) :
  Exists (fun tk => Qgtb (pull_now tk - start_time) (timeout cfg) = true) ticks ->
  forall s, exists s', manual_loop ext cfg max_frames start_time ticks s = (Ret tt, s').
Proof.
  induction ticks as [|tk rest IH]; intros Hlate s; [inversion Hlate|].
  cbn [manual_loop].
  destruct (Qgtb (pull_now tk - start_time) (timeout cfg)) eqn:Hnow; [eexists; reflexivity|].
  apply Exists_cons in Hlate as [Hlate|Hlate]; [congruence|].
  unfold bind.
  destruct (manual_body_returns ext cfg max_frames (pull_read tk) s) as (leave & s1 & Hbody).
  rewrite Hbody. destruct leave; [eexists; reflexivity|]. apply IH, Hlate.
Qed.

(** X8: a pull capture never raises and does not outlast the timeout: as
    soon as the feed holds a turn whose clock reading is past the timeout,
    [_capture_manual] returns, whatever the reads, the detector and the
    configuration (a zero sample_rate or chunk_size included) do. *)
Theorem pull_capture_returns_by_timeout (ext : Externals) (self : AudioInput ext)
    (max_frames : option Z) (wait_for_speech : bool) (start_time : Q)
    (ticks : list pull_tick) :
  Exists (fun tk => Qgtb (pull_now tk - start_time) (timeout (config self)) = true) ticks ->
  exists r self',
    _capture_manual ext max_frames wait_for_speech start_time ticks self = (Ret r, self').
Proof.
  intros Hlate. unfold _capture_manual.
  destruct (manual_loop_returns ext (config self) max_frames start_time ticks Hlate
              (vad self, mkLocals [] (negb wait_for_speech) 0)) as ([v l] & Hrun).
  rewrite Hrun. eauto.
Qed.

Lemma pull_capture_returns_by_timeout_witness :
  exists r self',
    _capture_manual ext0 None true 0
      [mkPull 0 (Done quiet1); mkPull 0.11 (Done quiet1)]
      (AudioInput_init ext0 false true quick_push_config) = (Ret r, self').
Proof.
  apply (pull_capture_returns_by_timeout ext0
           (AudioInput_init ext0 false true quick_push_config) None true 0
           [mkPull 0 (Done quiet1); mkPull 0.11 (Done quiet1)]).
  apply Exists_cons_tl, Exists_cons_hd. vm_compute. reflexivity.
Defined.

(** X9: a read that raises ends the pull capture exactly as the timeout
    would at that turn: the frames accumulated so far are returned (or
    [None] if there are none), the exception goes no further, and nothing
    after that turn is read. *)
Theorem read_error_ends_capture_like_timeout (ext : Externals) (self : AudioInput ext)
    (max_frames : option Z) (wait_for_speech : bool) (start_time : Q)
    (before after after' : list pull_tick) (t t' : Q) (e : exn) (rd : outcome bytes) :
  Qgtb (t' - start_time) (timeout (config self)) = true ->
  _capture_manual ext max_frames wait_for_speech start_time
    (before ++ mkPull t (Thrown e) :: after) self
  = _capture_manual ext max_frames wait_for_speech start_time
      (before ++ mkPull t' rd :: after') self.
Proof.
  intros Hlate. unfold _capture_manual.
  assert (Hloop : forall s,
            manual_loop ext (config self) max_frames start_time
              (before ++ mkPull t (Thrown e) :: after) s
            = manual_loop ext (config self) max_frames start_time
                (before ++ mkPull t' rd :: after') s).
  { induction before as [|tk rest IH]; intros s; cbn [app manual_loop pull_now pull_read].
    - rewrite Hlate. unfold bind.
      destruct (Qgtb (t - start_time) (timeout (config self))); [reflexivity|].
      rewrite body_read_error. reflexivity.
    - destruct (Qgtb (pull_now tk - start_time) (timeout (config self))); [reflexivity|].
      unfold bind.
      destruct (manual_body ext (config self) max_frames (pull_read tk) s) as [[[]| |] s1];
        try reflexivity.
      apply IH. }
  rewrite Hloop. reflexivity.
Qed.

Lemma read_error_ends_capture_like_timeout_witness :
  _capture_manual ext0 None true 0
    ([mkPull 0 (Done loud); mkPull 0.064 (Done quiet1)]
       ++ mkPull 0.128 (Thrown IOError) :: [mkPull 0.192 (Done quiet2)])
    (AudioInput_init ext0 false true pull_config)
  = _capture_manual ext0 None true 0
      ([mkPull 0 (Done loud); mkPull 0.064 (Done quiet1)]
         ++ mkPull 2.5 (Done quiet0) :: [])
      (AudioInput_init ext0 false true pull_config).
Proof.
  apply (read_error_ends_capture_like_timeout ext0
           (AudioInput_init ext0 false true pull_config) None true 0).
  vm_compute. reflexivity.
Defined.

(** ** Where a pull utterance starts *)

Lemma repeat_snoc {A} (x : A) (n : nat) : repeat x n ++ [x] = repeat x (S n).
Proof. induction n as [|n IH]; cbn; [reflexivity|]. now rewrite IH. Qed.

Section Onset.

Variable ext : Externals.
Variable cfg : AudioConfig.
Variable max_frames : option Z.
Variable start_time : Q.
Variable v0 : VoiceActivityDetector ext.

Hypothesis rate_nonzero : sample_rate cfg <> 0.
Hypothesis chunk_nonzero : chunk_size cfg <> 0.

Lemma pull_loop_onset (ticks : list pull_tick) :
  forall (pre : list bytes) (s s' : Loop ext),
    onset_inv ext v0 pre s ->
    manual_loop ext cfg max_frames start_time ticks s = (Ret tt, s') ->
    exists j, onset_inv ext v0 (pre ++ firstn j (reads ticks)) s'.
Proof.
  induction ticks as [|tk rest IH]; intros pre [v l] s' Hinv Hrun.
  - discriminate Hrun.
  - cbn [manual_loop] in Hrun.
    destruct (Qgtb (pull_now tk - start_time) (timeout cfg)).
    { injection Hrun as <-. exists O. cbn. now rewrite app_nil_r. }
    unfold bind in Hrun.
    destruct (pull_read tk) as [data|e] eqn:Hread.
    2:{ rewrite body_read_error in Hrun. injection Hrun as <-.
        exists O. cbn. now rewrite app_nil_r. }
    assert (Hreads : reads (tk :: rest) = data :: reads rest).
    { unfold reads. cbn. rewrite Hread. reflexivity. }
    rewrite Hreads.
    destruct Hinv as [Hv Hfr]. cbn [fst snd] in Hv, Hfr.
    assert (Hv' : vad_after ext v data = vad_run ext v0 (pre ++ [data])).
    { rewrite vad_run_app. cbn. now rewrite Hv. }
    assert (Hlab : labels ext v0 (pre ++ [data]) = labels ext v0 pre ++ [verdict ext v data]).
    { rewrite labels_app. cbn. now rewrite Hv. }
    assert (Hnext : forall leave l1,
      manual_body ext cfg max_frames (Done data) (v, l) = (Ret leave, (vad_after ext v data, l1)) ->
      onset_inv ext v0 (pre ++ [data]) (vad_after ext v data, l1) ->
      exists j, onset_inv ext v0 (pre ++ firstn j (data :: reads rest)) s').
    { intros leave l1 Hbody Hinv1. rewrite Hbody in Hrun. destruct leave.
      - injection Hrun as <-. exists 1%nat. exact Hinv1.
      - destruct (IH (pre ++ [data]) _ s' Hinv1 Hrun) as (j & Hj).
        exists (S j). cbn [firstn]. now rewrite <- app_assoc in Hj. }
    destruct (speech_detected l) eqn:Hsd.
    + destruct Hfr as (k & [Hk Hquiet] & Hfs).
      assert (Hlt : (k < length pre)%nat).
      { rewrite <- (labels_length ext pre v0). apply nth_error_Some. congruence. }
      eapply Hnext.
      * apply body_capturing; assumption.
      * split; [exact Hv'|]. cbn [fst snd speech_detected frames].
        exists k. split; [split|].
        -- rewrite Hlab, nth_error_app1 by (rewrite labels_length; exact Hlt). exact Hk.
        -- rewrite Hlab, firstn_app, labels_length.
           replace (k - length pre)%nat with O by lia. cbn. now rewrite app_nil_r.
        -- rewrite Hfs. symmetry. apply skipn_snoc. lia.
    + destruct Hfr as [Hfs Hquiet]. destruct (verdict ext v data) eqn:Hsp.
      * eapply Hnext.
        -- apply body_onset; assumption.
        -- split; [exact Hv'|]. cbn [fst snd speech_detected frames].
           exists (length pre). split; [split|].
           ++ rewrite Hlab, nth_error_app2 by (rewrite labels_length; lia).
              rewrite labels_length, Nat.sub_diag. reflexivity.
           ++ rewrite Hlab, firstn_app, labels_length, Nat.sub_diag. cbn.
              rewrite app_nil_r, firstn_all2 by (rewrite labels_length; lia). exact Hquiet.
           ++ rewrite skipn_app, skipn_all, Nat.sub_diag. reflexivity.
      * eapply Hnext.
        -- apply body_waiting_quiet; assumption.
        -- split; [exact Hv'|]. cbn [fst snd]. rewrite Hsd. split; [exact Hfs|].
           rewrite Hlab, Hquiet, length_app. cbn. rewrite Nat.add_1_r. apply repeat_snoc.
Qed.

End Onset.

(** X10: in pull mode with wait_for_speech=true (and non-zero sample_rate
    and chunk_size) every returned utterance is a run of consecutive frames
    read that begins exactly at the first frame classified Speech: no frame
    read before it is ever part of the utterance. *)
Theorem pull_utterance_starts_at_first_speech (ext : Externals)
    (self self' : AudioInput ext) (max_frames : option Z) (start_time : Q)
    (ticks : list pull_tick) (utterance : bytes) :
  sample_rate (config self) <> 0 ->
  chunk_size (config self) <> 0 ->
  _capture_manual ext max_frames true start_time ticks self
    = (Ret (Some utterance), self') ->
  exists k n,
    utterance = join (segment k n (reads ticks)) /\
    first_speech (labels ext (vad self) (reads ticks)) k.
Proof.
  intros Hr Hc Hrun. unfold _capture_manual in Hrun.
  destruct (manual_loop ext (config self) max_frames start_time ticks
              (vad self, mkLocals [] (negb true) 0))
    as [[[]|e|] [v l]] eqn:Hloop; try discriminate.
  assert (Hinv0 : onset_inv ext (vad self) [] (vad self, mkLocals [] (negb true) 0)).
  { split; [reflexivity|]. cbn. split; reflexivity. }
  destruct (pull_loop_onset ext (config self) max_frames start_time (vad self)
              Hr Hc ticks [] _ (v, l) Hinv0 Hloop) as (j & [_ Hfr]).
  cbn [app fst snd] in Hfr.
  destruct (speech_detected l).
  - destruct Hfr as (k & [Hk Hquiet] & Hfs).
    rewrite labels_firstn in Hk, Hquiet.
    assert (Hkj : (k < j)%nat).
    { assert (H : (k < length (firstn j (labels ext (vad self) (reads ticks))))%nat)
        by (apply nth_error_Some; congruence).
      rewrite length_firstn in H. lia. }
    exists k, j. split; [|split].
    + destruct (frames l) eqn:E; [discriminate|].
      injection Hrun as <- _. unfold segment. now rewrite <- Hfs.
    + rewrite nth_error_firstn in Hk. destruct (Nat.ltb_spec k j); [exact Hk | lia].
    + rewrite firstn_firstn, Nat.min_l in Hquiet by lia. exact Hquiet.
  - destruct Hfr as [Hfs _]. rewrite Hfs in Hrun. discriminate.
Qed.

Lemma pull_utterance_starts_at_first_speech_witness :
  exists k n,
    join [loud; quiet0; quiet1; quiet2; quiet0]
      = join (segment k n (reads (pull_feed_from 0 onset_frames))) /\
    first_speech (labels ext0 (vad (AudioInput_init ext0 false true pull_config))
                    (reads (pull_feed_from 0 onset_frames))) k.
Proof.
  apply (pull_utterance_starts_at_first_speech ext0
           (AudioInput_init ext0 false true pull_config)
           (snd (_capture_manual ext0 None true 0 (pull_feed_from 0 onset_frames)
                   (AudioInput_init ext0 false true pull_config)))
           None 0 (pull_feed_from 0 onset_frames)).
  - vm_compute. discriminate.
  - vm_compute. discriminate.
  - vm_compute. reflexivity.
Defined.

(** ** Durations shorter than a frame *)

Lemma py_int_small (q : Q) : (-1 < q)%Q -> (q < 1)%Q -> py_int q = 0.
Proof.
  destruct q as [n d]. unfold Qlt, py_int. cbn. intros H0 H1.
  destruct (Z.le_gt_cases 0 n) as [Hn|Hn].
  - apply Z.quot_small. lia.
  - replace n with (- (- n)) by lia. rewrite Z.quot_opp_l by lia.
    rewrite Z.quot_small by lia. reflexivity.
Qed.

Lemma manual_loop_limit_zero (ext : Externals) (cfg : AudioConfig) (start_time : Q)
    (ticks : list pull_tick) :
  forall s,
    manual_loop ext cfg (Some 0) start_time ticks s
    = manual_loop ext cfg None start_time ticks s.
Proof.
  induction ticks as [|tk rest IH]; intros s; [reflexivity|].
  cbn [manual_loop].
  destruct (Qgtb (pull_now tk - start_time) (timeout cfg)); [reflexivity|].
  unfold bind. change (manual_body ext cfg (Some 0)) with (manual_body ext cfg None).
  destruct (manual_body ext cfg None (pull_read tk) s) as [[[]| |] s1]; try reflexivity.
  apply IH.
Qed.

Lemma bind_ext {S A B} (c : M S A) (k1 k2 : A -> M S B) (s : S) :
  (forall a s', k1 a s' = k2 a s') -> bind c k1 s = bind c k2 s.
Proof.
  intros H. unfold bind. destruct (c s) as [[a| |] s']; [apply H | reflexivity | reflexivity].
Qed.

Lemma vad_loop_limit_zero (ext : Externals) (start_time : Q) (ticks : list push_tick) :
  forall (sd : bool) (sil : Z) (self : AudioInput ext),
    vad_loop ext (Some 0) start_time sd sil ticks self
    = vad_loop ext None start_time sd sil ticks self.
Proof.
  induction ticks as [|tk rest IH]; intros sd sil self; [reflexivity|].
  cbn [vad_loop].
  apply bind_ext; intros _ s1. apply bind_ext; intros self1 s2.
  destruct (Qgtb (push_now tk - start_time) (timeout (config self1))); [reflexivity|].
  change (at_frame_limit (Some 0) (buffer self1)) with false.
  change (at_frame_limit None (buffer self1)) with false. cbv iota.
  apply bind_ext; intros sd' s3. destruct sd'; [|apply IH].
  apply bind_ext; intros sil' s4. apply bind_ext; intros secs s5.
  destruct (Qgtb secs (speech_pad_end (config self1))); [reflexivity | apply IH].
Qed.

(** X11: a duration for which duration * bytes_per_second / chunk_size,
    as Python computes it in double precision, lies strictly between -1
    and 1 makes the frame limit 0, which the loops treat as no limit:
    [capture_audio] then behaves exactly as with no duration at all and
    runs until silence or the timeout end it. *)
Theorem short_duration_sets_no_limit (ext : Externals) (d : Q) (wait_for_speech : bool)
    (feed : Feed) (s : Sys ext) :
  let cfg := config (fst s) in
  let bytes_per_second := sample_rate cfg * channels cfg * 2 in
  let frames := fl (fl (d * inject_Z bytes_per_second) / inject_Z (chunk_size cfg)) in
  chunk_size cfg <> 0 ->
  (-1 < frames)%Q ->
  (frames < 1)%Q ->
  capture_audio ext (Some d) wait_for_speech feed s
  = capture_audio ext None wait_for_speech feed s.
Proof.
  intros cfg bps frames Hc H0 H1. destruct s as [self w]. cbn in cfg.
  unfold capture_audio.
  change (bind (on_self ext get) ?k (self, w)) with (k self (self, w)). cbv beta.
  apply bind_ext; intros started s1.
  destruct started; [|reflexivity]. cbn [negb].
  apply bind_ext; intros _ s2.
  destruct (Qeq_bool d 0); [reflexivity|].
  fold cfg. rewrite py_div_nonzero by exact Hc.
  unfold bind at 1 2. unfold call, ret. cbv beta iota.
  fold bps. fold frames. rewrite (py_int_small frames H0 H1).
  destruct (vad_enabled cfg); unfold on_self, zoom.
  - unfold _capture_with_vad, bind. rewrite vad_loop_limit_zero. reflexivity.
  - unfold _capture_manual. rewrite manual_loop_limit_zero. reflexivity.
Qed.

Lemma short_duration_sets_no_limit_witness :
  capture_audio ext0 (Some (fl 0.01)) false (pull_feed (repeat loud 16))
    (AudioInput_init ext0 false true pull_config, world0)
  = capture_audio ext0 None false (pull_feed (repeat loud 16))
      (AudioInput_init ext0 false true pull_config, world0).
Proof.
  apply (short_duration_sets_no_limit ext0 (fl 0.01) false (pull_feed (repeat loud 16))
           (AudioInput_init ext0 false true pull_config, world0)).
  - vm_compute. discriminate.
  - vm_compute. reflexivity.
  - vm_compute. reflexivity.
Defined.

(** Rounding decides at the edge: the double 0.03 is below 3/100, yet at
    16 kHz its product with the 32000 bytes per second rounds to 960, so
    with chunks of 960 the frame limit is 1, not 0. *)
Lemma rounded_duration_reaches_one_frame :
  (fl 0.03 * 32000 < 960)%Q /\
  py_int (fl (fl (fl 0.03 * inject_Z (16000 * 1 * 2)) / inject_Z 960)) = 1.
Proof.
  split; vm_compute; reflexivity.
Qed.

(** ** The push buffer *)

Lemma on_vad_is_speech (ext : Externals) (self : AudioInput ext) (f : bytes) :
  on_vad ext (is_speech ext f None) self
  = (Ret (verdict ext (vad self) f), set_vad_of (vad_after ext (vad self) f) self).
Proof. unfold on_vad, zoom. rewrite is_speech_eq. reflexivity. Qed.






(** ** Saving never raises *)

(** X13: [save_audio] never raises and returns [True] exactly when it was
    given non-empty data and the wave module wrote the file: a failure of
    the wave module is turned into the result [False].  It leaves the
    object and the PortAudio log as they were and touches no path but
    [filename]: after [True] the WAV file is there, after [False] the
    path is as before or, when the failure came after the file was
    opened, holds a truncated file. *)
Theorem save_audio_swallows_errors (ext : Externals) (audio_data : option bytes)
    (filename : string) (s : Sys ext) :
  exists (b : bool) (fs : list (string * file)),
    save_audio ext audio_data filename s
      = (Ret b, (fst s, {| calls := calls (snd s); files := fs |})) /\
    (b = true <->
     exists data,
       audio_data = Some data /\ data <> [] /\
       wave_outcome ext filename (channels (config (fst s)))
         (sample_rate (config (fst s))) data = Written) /\
    (b = true ->
     exists data,
       audio_data = Some data /\
       fs = (filename,
             WavFile (channels (config (fst s))) 2 (sample_rate (config (fst s))) data)
              :: files (snd s)) /\
    (b = false ->
     fs = files (snd s) \/ fs = (filename, Truncated) :: files (snd s)).
Proof.
  destruct s as [a [cs fs]]. cbn [fst snd calls files].
  destruct audio_data as [[|b data]|].
  - exists false, fs. split; [reflexivity|]. split; [|split; [discriminate | auto]].
    split; [discriminate|]. intros (data & [= <-] & Hne & _). congruence.
  - unfold save_audio, wave_write. run_sys.
    destruct (wave_outcome ext filename _ _ (b :: data)) eqn:Hw; cbn; eexists _, _;
      (split; [reflexivity|]).
    + split; [|split; [discriminate | auto]].
      split; [discriminate|]. intros (data' & [= <-] & _ & Hw'). congruence.
    + split; [|split; [discriminate | auto]].
      split; [discriminate|]. intros (data' & [= <-] & _ & Hw'). congruence.
    + split; [|split; [|discriminate]].
      * split; [|reflexivity]. intros _. exists (b :: data).
        split; [reflexivity|]. split; [discriminate | exact Hw].
      * intros _. exists (b :: data). split; reflexivity.
  - exists false, fs. split; [reflexivity|]. split; [|split; [discriminate | auto]].
    split; [discriminate|]. intros (data & [=] & _).
Qed.

(** ** Listing the devices *)

Lemma scan_devices_state (ext : Externals) (host : Host) (n : nat) :
  forall (i : Z) (devices : list device_entry) (s : Sys ext),
    snd (scan_devices ext host i n devices s) = s.
Proof.
  induction n as [|n IH]; intros i devices s; cbn [scan_devices].
  - reflexivity.
  - unfold bind, call. destruct (get_device_info_by_index host i); [apply IH | reflexivity].
Qed.

Lemma scan_devices_ends (ext : Externals) (host : Host) (n : nat) :
  forall (i : Z) (devices : list device_entry) (s : Sys ext),
    fst (scan_devices ext host i n devices s) <> Starved.
Proof.
  induction n as [|n IH]; intros i devices s; cbn [scan_devices].
  - discriminate.
  - unfold bind, call. destruct (get_device_info_by_index host i); [apply IH | discriminate].
Qed.

Lemma filter_snoc {A} (f : A -> bool) (l : list A) (x : A) :
  filter f (l ++ [x]) = filter f l ++ (if f x then [x] else []).
Proof. rewrite filter_app. reflexivity. Qed.

Lemma scan_devices_all (ext : Externals) (host : Host) (info : Z -> device_info)
    (n : nat) :
  forall (k : nat) (s : Sys ext),
    (forall i, Z.of_nat k <= i < Z.of_nat (k + n) ->
               get_device_info_by_index host i = Done (info i)) ->
    scan_devices ext host (Z.of_nat k) n (input_devices info k) s
    = (Ret (input_devices info (k + n)), s).
Proof.
  induction n as [|n IH]; intros k s Hinfo; cbn [scan_devices].
  - rewrite Nat.add_0_r. reflexivity.
  - unfold bind, call. rewrite Hinfo by lia.
    replace (Z.of_nat k + 1) with (Z.of_nat (S k)) by lia.
    replace (k + S n)%nat with (S k + n)%nat by lia.
    assert (Hstep : (if maxInputChannels (info (Z.of_nat k)) >? 0
                     then input_devices info k ++ [entry_of (Z.of_nat k) (info (Z.of_nat k))]
                     else input_devices info k)
                    = input_devices info (S k)).
    { unfold input_devices.
      rewrite seq_S, map_app. cbn [Nat.add map]. rewrite filter_snoc, map_app.
      destruct (maxInputChannels (info (Z.of_nat k)) >? 0); cbn [map];
        [reflexivity | symmetry; apply app_nil_r]. }
    rewrite Hstep. apply IH. intros i Hi. apply Hinfo. lia.
Qed.

Lemma scan_devices_raises (ext : Externals) (host : Host) (n : nat) :
  forall (i j : Z) (e : exn) (devices : list device_entry) (s : Sys ext),
    i <= j < i + Z.of_nat n ->
    get_device_info_by_index host j = Thrown e ->
    exists e', fst (scan_devices ext host i n devices s) = Raise e'.
Proof.
  induction n as [|n IH]; intros i j e devices s Hj Hthrow; [lia|].
  cbn [scan_devices]. unfold bind, call.
  destruct (get_device_info_by_index host i) as [info|e0] eqn:Hi.
  - apply (IH (i + 1) j e); [|exact Hthrow].
    assert (i <> j) by congruence. lia.
  - exists e0. reflexivity.
Qed.

(** X14: [list_devices] on an object with PyAudio creates one PortAudio
    instance and terminates that same instance, whatever the queries
    answer, also when one of them raises; it makes no other device call
    and leaves the object, an open stream included, and the files as
    they were. *)
Theorem list_devices_releases_its_instance (ext : Externals) (host : Host)
    (self : AudioInput ext) (w : World) :
  pyaudio self = true ->
  dev_raises ext (calls w) PyAudioNew = false ->
  snd (list_devices ext host (self, w))
  = (self, {| calls := calls w ++ [PyAudioNew; PaTerminate (length (calls w))];
              files := files w |}).
Proof.
  intros Hpa Hnew. unfold list_devices.
  change (bind (on_self ext get) ?k (self, w)) with (k self (self, w)). cbv beta.
  rewrite Hpa. cbn [negb].
  unfold bind at 1. unfold on_world at 1, zoom, fresh. cbn [fst snd].
  unfold bind at 1. unfold on_world at 1, zoom, dev. cbn [fst snd calls files].
  rewrite Hnew. unfold try_finally.
  match goal with
  | |- context [bind ?c ?k ?s] =>
      assert (Hs : snd (bind c k s) = s /\ fst (bind c k s) <> Starved);
        [|destruct (bind c k s) as [r s1]; cbn [fst snd] in Hs;
          destruct Hs as [-> Hends]]
  end.
  { unfold bind, call. destruct (get_device_count host).
    - split; [apply scan_devices_state | apply scan_devices_ends].
    - split; [reflexivity | discriminate]. }
  unfold on_world, zoom. cbn [fst snd calls files].
  rewrite <- app_assoc. cbn [app].
  destruct r as [devices|e|]; [| |congruence];
    destruct (dev_raises ext (calls w ++ [PyAudioNew]) _); reflexivity.
Qed.

Lemma list_devices_releases_its_instance_witness :
  snd (list_devices ext0 host_broken (open_session ext0 pull_config, world0))
  = (open_session ext0 pull_config,
     {| calls := [PyAudioNew; PaTerminate 0]; files := [] |}).
Proof.
  apply (list_devices_releases_its_instance ext0 host_broken
           (open_session ext0 pull_config) world0); reflexivity.
Defined.

(** X15: when the PortAudio instance is created and terminated without
    error, the host
    reports [n] devices and answers the query for each of them,
    [list_devices] returns exactly the devices with at least one input
    channel, in index order, each with its index, name, channel count and
    its default sample rate truncated to an integer. *)
Theorem list_devices_lists_input_devices (ext : Externals) (host : Host)
    (info : Z -> device_info) (n : Z) (self : AudioInput ext) (w : World) :
  pyaudio self = true ->
  dev_raises ext (calls w) PyAudioNew = false ->
  dev_raises ext (calls w ++ [PyAudioNew]) (PaTerminate (length (calls w))) = false ->
  get_device_count host = Done n ->
  (forall i, 0 <= i < n -> get_device_info_by_index host i = Done (info i)) ->
  fst (list_devices ext host (self, w)) = Ret (input_devices info (Z.to_nat n)).
Proof.
  intros Hpa Hnew Hterm Hcount Hinfo. unfold list_devices.
  change (bind (on_self ext get) ?k (self, w)) with (k self (self, w)). cbv beta.
  rewrite Hpa. cbn [negb].
  unfold bind at 1. unfold on_world at 1, zoom, fresh. cbn [fst snd].
  unfold bind at 1. unfold on_world at 1, zoom, dev. cbn [fst snd calls files].
  rewrite Hnew. unfold try_finally, bind, call. rewrite Hcount.
  change 0 with (Z.of_nat 0).
  change (@nil device_entry) with (input_devices info 0).
  rewrite (scan_devices_all ext host info (Z.to_nat n) 0)
    by (intros i Hi; apply Hinfo; lia).
  unfold on_world, zoom. cbn [fst snd calls]. rewrite Hterm. reflexivity.
Qed.

Lemma list_devices_lists_input_devices_witness :
  fst (list_devices ext0 host3 (AudioInput_init ext0 false true pull_config, world0))
  = Ret [mkDeviceEntry 0 "mic" 2 44100; mkDeviceEntry 2 "usb" 1 16000].
Proof.
  apply (list_devices_lists_input_devices ext0 host3
           (fun i => if i =? 0 then mkDeviceInfo "mic" 2 44100
                     else if i =? 1 then mkDeviceInfo "speakers" 0 48000
                     else mkDeviceInfo "usb" 1 (16000.5))
           3 (AudioInput_init ext0 false true pull_config) world0).
  - reflexivity.
  - reflexivity.
  - reflexivity.
  - reflexivity.
  - intros i Hi. assert (Hc : i = 0 \/ i = 1 \/ i = 2) by lia.
    destruct Hc as [->|[->| ->]]; reflexivity.
Defined.

(** X16: when the query for one of the devices the host counts raises,
    [list_devices] raises as well: the devices found before the failure
    are not returned. *)
Theorem list_devices_query_failure_raises (ext : Externals) (host : Host)
    (n j : Z) (e : exn) (self : AudioInput ext) (w : World) :
  pyaudio self = true ->
  dev_raises ext (calls w) PyAudioNew = false ->
  get_device_count host = Done n ->
  0 <= j < n ->
  get_device_info_by_index host j = Thrown e ->
  exists e', fst (list_devices ext host (self, w)) = Raise e'.
Proof.
  intros Hpa Hnew Hcount Hj Hthrow. unfold list_devices.
  change (bind (on_self ext get) ?k (self, w)) with (k self (self, w)). cbv beta.
  rewrite Hpa. cbn [negb].
  unfold bind at 1. unfold on_world at 1, zoom, fresh. cbn [fst snd].
  unfold bind at 1. unfold on_world at 1, zoom, dev. cbn [fst snd calls files].
  rewrite Hnew. unfold try_finally.
  unfold bind at 1. unfold call at 1. rewrite Hcount.
  match goal with
  | |- context [scan_devices ext host 0 ?m ?d ?s] =>
      destruct (scan_devices_raises ext host m 0 j e d s) as [e' He'];
        [lia | exact Hthrow |];
        destruct (scan_devices ext host 0 m d s) as [r s1]; cbn [fst] in He'; subst r
  end.
  unfold on_world, zoom, dev. cbn [fst snd].
  match goal with
  | |- context [if ?b then _ else _] => destruct b
  end; cbn; eauto.
Qed.

Lemma list_devices_query_failure_raises_witness :
  exists e',
    fst (list_devices ext0 host_broken
           (AudioInput_init ext0 false true pull_config, world0)) = Raise e'.
Proof.
  apply (list_devices_query_failure_raises ext0 host_broken 3 1 IOError
           (AudioInput_init ext0 false true pull_config) world0);
    [reflexivity | reflexivity | reflexivity | lia | reflexivity].
Defined.

(** ** The application around the audio input *)

Lemma stop_stream_closes (ext : Externals) (s : Sys ext) :
  exists s',
    stop_stream ext s = (Ret tt, s') /\
    stream (fst s') = None /\
    (forall pa, pa_instance (fst s') <> Live pa) /\
    is_recording (fst s') = false /\
    stop_requested (fst s') = true.
Proof.
  destruct s as [[cfg v rec req st py pa buf] [cs fs]].
  unfold stop_stream. run_sys.
  destruct st as [st|]; cbn.
  - destruct (dev_raises ext cs (StreamStop st)); cbn.
    + destruct pa as [| |p]; cbn;
        try (destruct (dev_raises ext _ (PaTerminate p)); cbn);
        eexists; (split; [reflexivity|]); cbn; repeat split; intros; discriminate.
    + destruct (dev_raises ext _ (StreamClose st)); cbn;
        destruct pa as [| |p]; cbn;
        try (destruct (dev_raises ext _ (PaTerminate p)); cbn);
        eexists; (split; [reflexivity|]); cbn; repeat split; intros; discriminate.
  - destruct pa as [| |p]; cbn;
      try (destruct (dev_raises ext _ (PaTerminate p)); cbn);
      eexists; (split; [reflexivity|]); cbn; repeat split; intros; discriminate.
Qed.

Lemma start_stream_ends (ext : Externals) (s : Sys ext) :
  fst (start_stream ext s) <> Starved.
Proof.
  destruct s as [self w]. unfold start_stream.
  change (bind (on_self ext get) ?k (self, w)) with (k self (self, w)). cbv beta.
  destruct (pyaudio self); cbn [negb]; [|discriminate].
  unfold bind at 1.
  match goal with
  | |- context [try_catch ?c ?h] =>
      assert (Hopen : forall s1 : Sys ext, fst (try_catch c h s1) <> Starved)
  end.
  { intros [[cfg v rec req st py pa buf] [cs fs]]. unfold fresh. run_sys.
    destruct (dev_raises ext cs PyAudioNew); cbn.
    { destruct pa as [| |p]; cbn; try discriminate.
      destruct (dev_raises ext _ (PaTerminate p)); cbn; discriminate. }
    destruct (dev_raises ext _ (PaOpen _ _)); cbn.
    { destruct (dev_raises ext _ (PaTerminate _)); cbn; discriminate. }
    destruct (dev_raises ext _ (StreamStart _)); cbn; [|discriminate].
    destruct (dev_raises ext _ (PaTerminate _)); cbn; discriminate. }
  destruct (stream self) as [st|].
  - destruct (stop_stream_closes ext (self, w)) as (s' & Hs & _). rewrite Hs. apply Hopen.
  - apply Hopen.
Qed.

(** X17: [Voice2Text.start] never lets an exception of the notification,
    the audio input, the engine or the output escape.  Whenever it returns,
    the application is not running and the audio session is closed: no
    stream, no live PortAudio instance, not recording, stop requested.
    In one-shot mode it returns as soon as the capture is over: it is
    still running only while [capture_audio], called on the stream it
    started, is. *)
Theorem start_always_closes_audio (ext : Externals) (col : Collaborators)
    (feed : Feed) (more : list Feed) (app : Voice2Text ext col) :
  let r := fst (start ext col feed more app) in
  let app' := snd (start ext col feed more app) in
  (forall e, r <> Raise e) /\
  (r = Ret tt ->
   is_running app' = false /\
   stream (fst (audio app')) = None /\
   (forall pa, pa_instance (fst (audio app')) <> Live pa) /\
   is_recording (fst (audio app')) = false /\
   stop_requested (fst (audio app')) = true) /\
  (continuous app = false -> r = Starved ->
   show_notification col = Done tt /\
   fst (start_stream ext (audio app)) = Ret true /\
   fst (capture_audio ext None true feed (snd (start_stream ext (audio app))))
     = Starved).
Proof.
  cbv zeta. destruct (start ext col feed more app) as [r app'] eqn:Hrun.
  cbn [fst snd]. unfold start in Hrun.
  unfold bind at 1 in Hrun. unfold modify at 1 in Hrun. unfold try_finally in Hrun.
  match type of Hrun with
  | context [try_catch ?c ?h ?s] =>
      destruct (try_catch c h s) as [r1 app1] eqn:Hb
  end.
  assert (Hbody : forall e, r1 <> Raise e).
  { intros e. unfold try_catch in Hb.
    match type of Hb with
    | context [match ?x with (_, _) => _ end] => destruct x as [[u|e0|] app2]
    end; injection Hb as <- _; discriminate. }
  assert (Hone : continuous app = false -> r1 = Starved ->
                 show_notification col = Done tt /\
                 fst (start_stream ext (audio app)) = Ret true /\
                 fst (capture_audio ext None true feed
                        (snd (start_stream ext (audio app)))) = Starved).
  { intros Hc Hs. subst r1. unfold try_catch, bind at 1, call in Hb.
    destruct (show_notification col) as [[]|e]; [|discriminate].
    unfold bind at 1 in Hb. unfold on_audio at 1, zoom in Hb.
    cbn [audio set_is_running] in Hb.
    pose proof (start_stream_ends ext (audio app)) as Hends.
    destruct (start_stream ext (audio app)) as [[[|]|e|] s1] eqn:Hstart;
      cbn [negb fst snd] in Hb, Hends; try discriminate; try congruence.
    unfold bind at 1, get in Hb.
    cbn [continuous set_audio set_is_running] in Hb. rewrite Hc in Hb.
    unfold _run_single in Hb.
    unfold bind at 1 in Hb. unfold on_audio at 1, zoom in Hb.
    cbn [audio set_audio] in Hb.
    destruct (capture_audio ext None true feed s1) as [[[[|b data]|]|e|] s2] eqn:Hcap;
      cbn [fst snd] in Hb; try discriminate;
      try (cbn [fst snd]; rewrite Hcap; repeat split; reflexivity).
    unfold bind at 1, engine_recognize in Hb.
    cbn [engine set_audio set_is_running is_running continuous audio typed] in Hb.
    destruct (recognize col (engine app) (b :: data)) as [[[[|c t]|]|e] eng'];
      try discriminate.
    unfold bind, output_type_text in Hb. cbn [typed] in Hb.
    destruct (type_text col (typed app) (String c t)); discriminate. }
  destruct r1 as [[]|e|].
  - unfold stop, bind, modify, on_audio, zoom in Hrun.
    cbn [audio set_is_running] in Hrun.
    destruct (stop_stream_closes ext (audio app1)) as (s' & Hstop & Hpost).
    rewrite Hstop in Hrun. injection Hrun as <- <-.
    cbn [fst snd audio set_audio is_running].
    split; [discriminate|]. split; [intros _; split; [reflexivity | exact Hpost]|].
    intros _ Hs. discriminate.
  - exfalso. apply (Hbody e). reflexivity.
  - injection Hrun as <- <-.
    split; [discriminate|]. split; [discriminate|].
    intros Hc _. apply Hone; [exact Hc | reflexivity].
Qed.

Lemma start_always_closes_audio_witness :
  fst (start ext0 col0 (pull_feed onset_frames) [] app0) = Ret tt /\
  is_running (snd (start ext0 col0 (pull_feed onset_frames) [] app0)) = false /\
  stream (fst (audio (snd (start ext0 col0 (pull_feed onset_frames) [] app0)))) = None /\
  typed (snd (start ext0 col0 (pull_feed onset_frames) [] app0)) = ["hello"%string].
Proof.
  assert (Hret : fst (start ext0 col0 (pull_feed onset_frames) [] app0) = Ret tt)
    by (vm_compute; reflexivity).
  destruct (start_always_closes_audio ext0 col0 (pull_feed onset_frames) [] app0)
    as (_ & Hclosed & _).
  destruct (Hclosed Hret) as (Hrun & Hstream & _).
  split; [exact Hret|]. split; [exact Hrun|]. split; [exact Hstream|].
  vm_compute. reflexivity.
Defined.

Lemma stop_keeps_typed (ext : Externals) (col : Collaborators) (app : Voice2Text ext col) :
  typed (snd (stop ext col app)) = typed app.
Proof.
  unfold stop, bind, modify, on_audio, zoom. cbn [audio set_is_running].
  destruct (stop_stream ext (audio app)) as [[u|e|] s']; reflexivity.
Qed.

(** X18: in one-shot mode [start] hands the output at most one text, and
    only this one: the non-empty transcript the engine gives for the
    non-empty audio that [capture_audio] returned on the session
    [start_stream] had just opened.  When the stream does not start, the
    capture returns nothing or raises, or the engine hears nothing,
    nothing is typed. *)
Theorem one_shot_types_only_the_transcript (ext : Externals) (col : Collaborators)
    (feed : Feed) (more : list Feed) (app : Voice2Text ext col) :
  continuous app = false ->
  let app' := snd (start ext col feed more app) in
  typed app' = typed app \/
  exists (data : bytes) (text : string),
    fst (start_stream ext (audio app)) = Ret true /\
    fst (capture_audio ext None true feed (snd (start_stream ext (audio app))))
      = Ret (Some data) /\
    data <> [] /\
    fst (recognize col (engine app) data) = Done (Some text) /\
    text <> EmptyString /\
    typed app' = typed app ++ [text].
Proof.
  intros Hone. cbv zeta.
  destruct (start ext col feed more app) as [r app'] eqn:Hrun. cbn [snd].
  unfold start in Hrun.
  unfold bind at 1 in Hrun. unfold modify at 1 in Hrun. unfold try_finally in Hrun.
  match type of Hrun with
  | context [try_catch ?c ?h ?s] =>
      destruct (try_catch c h s) as [r1 app1] eqn:Hb
  end.
  assert (Hbody :
            typed app1 = typed app \/
            exists (data : bytes) (text : string),
              fst (start_stream ext (audio app)) = Ret true /\
              fst (capture_audio ext None true feed
                     (snd (start_stream ext (audio app)))) = Ret (Some data) /\
              data <> [] /\
              fst (recognize col (engine app) data) = Done (Some text) /\
              text <> EmptyString /\
              typed app1 = typed app ++ [text]).
  { unfold try_catch, bind at 1, call in Hb.
    destruct (show_notification col) as [[]|e];
      [|injection Hb as <- <-; left; reflexivity].
    unfold bind at 1 in Hb. unfold on_audio at 1, zoom in Hb.
    cbn [audio set_is_running] in Hb.
    destruct (start_stream ext (audio app)) as [[[|]|e|] s1] eqn:Hstart;
      cbn [negb fst snd] in Hb;
      try (injection Hb as <- <-; left; reflexivity).
    unfold bind at 1, get in Hb.
    cbn [continuous set_audio set_is_running] in Hb. rewrite Hone in Hb.
    unfold _run_single in Hb.
    unfold bind at 1 in Hb. unfold on_audio at 1, zoom in Hb.
    cbn [audio set_audio] in Hb.
    destruct (capture_audio ext None true feed s1) as [[[[|b data]|]|e|] s2] eqn:Hcap;
      cbn [fst snd] in Hb;
      try (injection Hb as <- <-; left; reflexivity).
    unfold bind at 1, engine_recognize in Hb.
    cbn [engine set_audio set_is_running is_running continuous audio typed] in Hb.
    destruct (recognize col (engine app) (b :: data)) as [[[[|c t]|]|e] eng'] eqn:Hrec;
      try (injection Hb as <- <-; left; reflexivity).
    unfold bind, output_type_text in Hb. cbn [typed] in Hb.
    right. exists (b :: data), (String c t). cbn [fst snd].
    rewrite Hcap, Hrec. cbn [fst snd].
    repeat split; try discriminate.
    destruct (type_text col (typed app) (String c t));
      injection Hb as <- <-; reflexivity. }
  pose proof (stop_keeps_typed ext col app1) as Ht.
  destruct r1 as [u|e|];
    [| |injection Hrun as <- <-; exact Hbody];
    destruct (stop ext col app1) as [[u'|e'|] app2]; cbn [snd] in Ht;
    injection Hrun as <- <-; rewrite Ht; exact Hbody.
Qed.

Lemma one_shot_types_only_the_transcript_witness :
  typed (snd (start ext0 col0 (pull_feed onset_frames) [] app0)) = typed app0 \/
  exists (data : bytes) (text : string),
    fst (start_stream ext0 (audio app0)) = Ret true /\
    fst (capture_audio ext0 None true (pull_feed onset_frames)
           (snd (start_stream ext0 (audio app0)))) = Ret (Some data) /\
    data <> [] /\
    fst (recognize col0 (engine app0) data) = Done (Some text) /\
    text <> EmptyString /\
    typed (snd (start ext0 col0 (pull_feed onset_frames) [] app0)) = typed app0 ++ [text].
Proof.
  apply (one_shot_types_only_the_transcript ext0 col0 (pull_feed onset_frames) [] app0).
  reflexivity.
Defined.

(** X19: the continuous loop does not end by itself.  While [is_running]
    holds no round clears it, and an exception raised by a capture, by the
    engine or by the output only ends that round: after any finite number
    of rounds the loop is still waiting for the next capture. *)
Theorem continuous_loop_never_ends_by_itself (ext : Externals) (col : Collaborators)
    (rounds : list Feed) (app : Voice2Text ext col) :
  is_running app = true ->
  fst (_run_continuous ext col rounds app) = Starved /\
  is_running (snd (_run_continuous ext col rounds app)) = true.
Proof.
  revert app. induction rounds as [|feed rest IH]; intros app Hrun.
  - cbn [_run_continuous]. unfold bind, get. rewrite Hrun. cbn. auto.
  - destruct (_run_continuous ext col (feed :: rest) app) as [r' app'] eqn:Hloop.
    cbn [fst snd]. cbn [_run_continuous] in Hloop.
    unfold bind at 1, get in Hloop. rewrite Hrun in Hloop. cbn [negb] in Hloop.
    unfold bind at 1 in Hloop.
    match type of Hloop with
    | context [try_catch ?c ?h app] =>
        destruct (try_catch c h app) as [r app1] eqn:Hb
    end.
    assert (Hround : is_running app1 = true /\ forall e, r <> Raise e).
    { unfold try_catch, bind at 1 in Hb. unfold on_audio at 1, zoom in Hb.
      destruct (capture_audio ext None true feed (audio app)) as [[[[|b data]|]|e|] s1];
        cbn [fst snd] in Hb;
        try (injection Hb as <- <-; split; [exact Hrun | discriminate]).
      unfold bind at 1, engine_recognize in Hb.
      cbn [engine set_audio is_running continuous audio typed] in Hb.
      destruct (recognize col (engine app) (b :: data)) as [[[[|c t]|]|e] eng'];
        try (injection Hb as <- <-; split; [exact Hrun | discriminate]).
      unfold bind, output_type_text in Hb. cbn [typed is_running] in Hb.
      destruct (type_text col (typed app) (String c t));
        injection Hb as <- <-; (split; [exact Hrun | discriminate]). }
    destruct Hround as [Hrun1 Hno].
    destruct r as [u|e|].
    + destruct (IH app1 Hrun1) as [Hr Hs]. rewrite Hloop in Hr, Hs. auto.
    + exfalso. apply (Hno e). reflexivity.
    + injection Hloop as <- <-. auto.
Qed.

Lemma continuous_loop_never_ends_by_itself_witness :
  fst (_run_continuous ext0 col0 [pull_feed onset_frames; pull_feed onset_frames]
         (mkVoice2Text ext0 col0 true true
            (open_session ext0 pull_config, world0) tt [])) = Starved /\
  is_running
    (snd (_run_continuous ext0 col0 [pull_feed onset_frames; pull_feed onset_frames]
            (mkVoice2Text ext0 col0 true true
               (open_session ext0 pull_config, world0) tt []))) = true.
Proof.
  apply (continuous_loop_never_ends_by_itself ext0 col0
           [pull_feed onset_frames; pull_feed onset_frames]
           (mkVoice2Text ext0 col0 true true
              (open_session ext0 pull_config, world0) tt [])).
  reflexivity.
Defined.

(** ** Merging configurations *)

Lemma deep_update_cons (d : dict) (k : string) (v : pyobj) (rest : dict) :
  _deep_update d ((k, v) :: rest)
  = _deep_update
      match v, dict_get k d with
      | Dict vi, Some (Dict dk) => dict_set k (Dict (_deep_update dk vi)) d
      | _, _ => dict_set k v d
      end rest.
Proof. destruct v; reflexivity. Qed.

Lemma dict_get_set_same (k : string) (v : pyobj) (d : dict) :
  dict_get k (dict_set k v d) = Some v.
Proof.
  induction d as [|[k' v'] rest IH]; cbn.
  - rewrite String.eqb_refl. reflexivity.
  - destruct (String.eqb k k') eqn:E; cbn; rewrite ?String.eqb_refl, ?E; auto.
Qed.

Lemma dict_get_set_other (k k' : string) (v : pyobj) (d : dict) :
  k <> k' -> dict_get k (dict_set k' v d) = dict_get k d.
Proof.
  intros Hne. induction d as [|[k0 v0] rest IH]; cbn.
  - apply String.eqb_neq in Hne. rewrite Hne. reflexivity.
  - destruct (String.eqb k' k0) eqn:E; cbn.
    + apply String.eqb_eq in E. subst k0.
      apply String.eqb_neq in Hne. rewrite Hne. reflexivity.
    + destruct (String.eqb k k0); [reflexivity | exact IH].
Qed.

Lemma deep_update_other_key (k : string) (u : dict) :
  forall d, dict_get k u = None -> dict_get k (_deep_update d u) = dict_get k d.
Proof.
  induction u as [|[k0 v0] rest IH]; intros d Hk.
  - reflexivity.
  - cbn in Hk. destruct (String.eqb k k0) eqn:E; [discriminate|].
    apply String.eqb_neq in E.
    rewrite deep_update_cons, (IH _ Hk).
    destruct v0 as [a|vi]; [apply dict_get_set_other; exact E|].
    destruct (dict_get k0 d) as [[a|dk]|]; apply dict_get_set_other; exact E.
Qed.

Lemma unique_keys_cons (k : string) (v : pyobj) (rest : dict) :
  unique_keys (Dict ((k, v) :: rest)) = true ->
  dict_get k rest = None /\ unique_keys v = true /\ unique_keys (Dict rest) = true.
Proof.
  cbn. destruct (dict_get k rest); [discriminate|].
  intros H. apply andb_true_iff in H. tauto.
Qed.

Lemma unique_keys_get (k : string) (v : pyobj) (u : dict) :
  unique_keys (Dict u) = true -> dict_get k u = Some v -> unique_keys v = true.
Proof.
  induction u as [|[k0 v0] rest IH]; intros Hu Hk; [discriminate|].
  apply unique_keys_cons in Hu. destruct Hu as (_ & Hv & Hrest).
  cbn in Hk. destruct (String.eqb k k0); [congruence | auto].
Qed.

(** One level of the merge: what is found under a key of the update. *)
Lemma deep_update_key (k : string) (v : pyobj) (u : dict) :
  forall d,
    unique_keys (Dict u) = true ->
    dict_get k u = Some v ->
    dict_get k (_deep_update d u)
    = Some match v, dict_get k d with
           | Dict vi, Some (Dict dk) => Dict (_deep_update dk vi)
           | _, _ => v
           end.
Proof.
  induction u as [|[k0 v0] rest IH]; intros d Hu Hk; [discriminate|].
  apply unique_keys_cons in Hu. destruct Hu as (Hfresh & _ & Hrest).
  rewrite deep_update_cons. cbn in Hk.
  destruct (String.eqb k k0) eqn:E.
  - apply String.eqb_eq in E. subst k0. injection Hk as ->.
    rewrite (deep_update_other_key k rest _ Hfresh).
    destruct v as [a|vi]; [apply dict_get_set_same|].
    destruct (dict_get k d) as [[a|dk]|]; apply dict_get_set_same.
  - apply String.eqb_neq in E. rewrite (IH _ Hrest Hk). f_equal.
    assert (Hd : forall x, dict_get k (dict_set k0 x d) = dict_get k d)
      by (intros x; apply dict_get_set_other; exact E).
    destruct v0 as [a|vi0]; [rewrite Hd; reflexivity|].
    destruct (dict_get k0 d) as [[a|dk0]|]; rewrite Hd; reflexivity.
Qed.

(** X20: the user's settings win.  A non-dictionary value found in the
    update [u] under a path of keys is found under the same path after
    [_deep_update(d, u)], whatever [d] held there. *)
Theorem deep_update_takes_user_values (p : list string) :
  forall (d u : dict) (a : scalar),
    unique_keys (Dict u) = true ->
    lookup_path p (Dict u) = Some (Leaf a) ->
    lookup_path p (Dict (_deep_update d u)) = Some (Leaf a).
Proof.
  induction p as [|k p' IH]; intros d u a Hu Hp; [discriminate|].
  cbn [lookup_path] in *.
  destruct (dict_get k u) as [v|] eqn:Hk; [|discriminate].
  rewrite (deep_update_key k v u d Hu Hk).
  destruct v as [b|vi]; [exact Hp|].
  destruct (dict_get k d) as [[b|dk]|]; try exact Hp.
  apply IH; [exact (unique_keys_get k _ u Hu Hk)|].
  destruct p'; [discriminate | exact Hp].
Qed.

Lemma deep_update_takes_user_values_witness :
  lookup_path ["audio"%string; "sample_rate"%string]
    (Dict (_deep_update app_defaults user_config)) = Some (Leaf (SInt 8000)).
Proof.
  apply (deep_update_takes_user_values ["audio"%string; "sample_rate"%string]
           app_defaults user_config (SInt 8000)); reflexivity.
Defined.




(** ** Filtering error text *)

Lemma starts_with_iff (p l : str) :
  starts_with p l = true <-> exists post, l = p ++ post.
Proof.
  revert l. induction p as [|a p IH]; intros l; cbn.
  - split; [intros _; exists l; reflexivity | reflexivity].
  - destruct l as [|b l]; [split; [discriminate | intros [post H]; discriminate]|].
    rewrite andb_true_iff, N.eqb_eq, IH. split.
    + intros [-> [post ->]]. exists post. reflexivity.
    + intros [post H]. injection H as -> ->. split; [reflexivity | eauto].
Qed.

Lemma contains_iff (p l : str) :
  contains p l = true <-> exists pre post, l = pre ++ p ++ post.
Proof.
  induction l as [|b l IH]; cbn [contains]; rewrite orb_true_iff, starts_with_iff.
  - split.
    + intros [[post H]|H]; [exists [], post; exact H | discriminate].
    + intros (pre & post & H). left.
      destruct pre; [exists post; exact H | discriminate].
  - rewrite IH. split.
    + intros [[post H]|(pre & post & H)].
      * exists [], post. exact H.
      * exists (b :: pre), post. rewrite H. reflexivity.
    + intros (pre & post & H). destruct pre as [|x pre].
      * left. exists post. exact H.
      * right. injection H as -> ->. eauto.
Qed.

Lemma prefix_before_separator (nl : N) (p : str) :
  forall post m l2,
    ~ In nl p ->
    p ++ post = m ++ nl :: l2 ->
    exists post', m = p ++ post'.
Proof.
  induction p as [|a p IH]; intros post m l2 Hnl H.
  - exists m. reflexivity.
  - destruct m as [|b m]; cbn in H.
    + injection H as -> _. exfalso. apply Hnl. left. reflexivity.
    + injection H as -> H.
      destruct (IH post m l2) as [post' ->]; [|exact H|].
      * intros Hin. apply Hnl. right. exact Hin.
      * exists post'. reflexivity.
Qed.

Lemma occurrence_avoids_separator (nl : N) (p : str) (l1 : str) :
  forall pre post l2,
    ~ In nl p ->
    pre ++ p ++ post = l1 ++ nl :: l2 ->
    (exists pre' post', l1 = pre' ++ p ++ post') \/
    (exists pre' post', l2 = pre' ++ p ++ post').
Proof.
  induction l1 as [|y l1 IH]; intros pre post l2 Hnl H.
  - destruct pre as [|x pre]; cbn in H.
    + destruct p as [|a p]; [left; exists [], []; reflexivity|].
      injection H as -> _. exfalso. apply Hnl. left. reflexivity.
    + injection H as _ H. right. eauto.
  - destruct pre as [|x pre].
    + cbn [app] in H.
      destruct (prefix_before_separator nl p post (y :: l1) l2 Hnl H) as [post' Hm].
      left. exists [], post'. exact Hm.
    + injection H as -> H.
      destruct (IH pre post l2 Hnl H) as [(pre' & post' & ->)|Hr].
      * left. exists (y :: pre'), post'. reflexivity.
      * right. exact Hr.
Qed.

Lemma join_contains_nothing_new (nl : N) (p : str) (ls : list str) :
  p <> [] ->
  ~ In nl p ->
  (forall l, In l ls -> contains p l = false) ->
  contains p (str_join [nl] ls) = false.
Proof.
  intros Hp Hnl. induction ls as [|l rest IH]; intros Hls.
  - destruct p; [congruence | reflexivity].
  - destruct rest as [|l' rest'].
    + apply Hls. left. reflexivity.
    + destruct (contains p (str_join [nl] (l :: l' :: rest'))) eqn:E; [|reflexivity].
      apply contains_iff in E. destruct E as (pre & post & E).
      change (str_join [nl] (l :: l' :: rest'))
        with (l ++ nl :: str_join [nl] (l' :: rest')) in E.
      symmetry in E.
      destruct (occurrence_avoids_separator nl p l pre post _ Hnl E) as [Hl|Hr].
      * apply contains_iff in Hl. rewrite (Hls l) in Hl by (left; reflexivity).
        discriminate.
      * apply contains_iff in Hr. rewrite IH in Hr; [discriminate|].
        intros l0 Hin. apply Hls. right. exact Hin.
Qed.

(** X22: whatever the text, the result of [filter_alsa_jack_errors]
    contains none of the six patterns anywhere, also not across the line
    breaks it puts between the lines it keeps. *)
Theorem filtered_text_has_no_pattern (error_text : str) (pattern : str) :
  In pattern patterns ->
  contains pattern (filter_alsa_jack_errors error_text) = false.
Proof.
  intros Hin. unfold filter_alsa_jack_errors.
  assert (Hshape : forallb (fun p => match p with
                                     | [] => false
                                     | _ => negb (existsb (N.eqb 10) p)
                                     end) patterns = true) by reflexivity.
  rewrite forallb_forall in Hshape. specialize (Hshape pattern Hin).
  apply join_contains_nothing_new.
  - destruct pattern; [discriminate | discriminate].
  - intros Hnl. destruct pattern as [|a p]; [discriminate|].
    apply negb_true_iff in Hshape.
    assert (Hex : existsb (N.eqb 10) (a :: p) = true).
    { apply existsb_exists. exists 10%N. split; [exact Hnl | apply N.eqb_refl]. }
    congruence.
  - intros l Hl. apply filter_In in Hl. destruct Hl as [_ Hkeep].
    apply negb_true_iff in Hkeep.
    destruct (contains pattern l) eqn:E; [|reflexivity].
    assert (Hex : existsb (fun q => contains q l) patterns = true).
    { apply existsb_exists. exists pattern. split; [exact Hin | exact E]. }
    congruence.
Qed.

Lemma filtered_text_has_no_pattern_witness :
  contains (str_of "snd_")
    (filter_alsa_jack_errors
       (str_of "ready" ++ [13; 10]%N ++ str_of "ALSA lib pcm.c: snd_pcm_open"
          ++ [10]%N ++ str_of "listening")) = false.
Proof.
  apply (filtered_text_has_no_pattern
           (str_of "ready" ++ [13; 10]%N ++ str_of "ALSA lib pcm.c: snd_pcm_open"
              ++ [10]%N ++ str_of "listening")
           (str_of "snd_")).
  cbn. tauto.
Defined.

Lemma splitlines_last_line (l : str) :
  forall line,
    forallb (fun c => negb (is_linebreak c)) l = true ->
    splitlines_from line l = match line ++ l with [] => [] | _ => [line ++ l] end.
Proof.
  induction l as [|c l IH]; intros line Hl; cbn [splitlines_from].
  - rewrite app_nil_r. reflexivity.
  - cbn [forallb] in Hl. apply andb_true_iff in Hl. destruct Hl as [Hc Hl].
    apply negb_true_iff in Hc. rewrite Hc, (IH _ Hl), <- app_assoc. reflexivity.
Qed.

Lemma splitlines_first_line (l : str) :
  forall line rest,
    forallb (fun c => negb (is_linebreak c)) l = true ->
    splitlines_from line (l ++ 10%N :: rest) = (line ++ l) :: splitlines_from [] rest.
Proof.
  induction l as [|c l IH]; intros line rest Hl.
  - rewrite app_nil_r. destruct rest; reflexivity.
  - cbn [forallb] in Hl. apply andb_true_iff in Hl. destruct Hl as [Hc Hl].
    apply negb_true_iff in Hc. cbn [app splitlines_from].
    rewrite Hc, (IH _ _ Hl), <- app_assoc. reflexivity.
Qed.

Lemma splitlines_join (ls : list str) :
  forallb (forallb (fun c => negb (is_linebreak c))) ls = true ->
  (forall ls', ls <> ls' ++ [[]]) ->
  splitlines (str_join [10%N] ls) = ls.
Proof.
  induction ls as [|l rest IH]; intros Hls Hlast; [reflexivity|].
  cbn [forallb] in Hls. apply andb_true_iff in Hls. destruct Hls as [Hl Hrest].
  destruct rest as [|l' rest'].
  - unfold splitlines. cbn [str_join]. rewrite (splitlines_last_line l [] Hl).
    cbn [app]. destruct l; [|reflexivity].
    exfalso. apply (Hlast []). reflexivity.
  - unfold splitlines.
    change (str_join [10%N] (l :: l' :: rest'))
      with (l ++ 10%N :: str_join [10%N] (l' :: rest')).
    rewrite (splitlines_first_line l [] _ Hl). cbn [app].
    fold (splitlines (str_join [10%N] (l' :: rest'))). rewrite IH; [reflexivity|exact Hrest|].
    intros ls' E. apply (Hlast (l :: ls')). rewrite E. reflexivity.
Qed.

Lemma filter_keeps_all {A} (f : A -> bool) (l : list A) :
  forallb f l = true -> filter f l = l.
Proof.
  induction l as [|x l IH]; cbn; [reflexivity|].
  intros H. apply andb_true_iff in H. destruct H as [-> H]. rewrite (IH H). reflexivity.
Qed.

(** X23: a text that has nothing to filter comes back unchanged: lines
    without any pattern, separated by single line feeds and with no line
    feed at the very end, are joined again exactly as they were. *)
Theorem clean_text_is_unchanged (ls : list str) :
  forallb clean_line ls = true ->
  (forall ls', ls <> ls' ++ [[]]) ->
  filter_alsa_jack_errors (str_join [10%N] ls) = str_join [10%N] ls.
Proof.
  intros Hclean Hlast. unfold filter_alsa_jack_errors.
  assert (Hbr : forallb (forallb (fun c => negb (is_linebreak c))) ls = true).
  { apply forallb_forall. intros l Hl.
    rewrite forallb_forall in Hclean. specialize (Hclean l Hl).
    unfold clean_line in Hclean. apply andb_true_iff in Hclean. tauto. }
  rewrite (splitlines_join ls Hbr Hlast).
  rewrite filter_keeps_all; [reflexivity|].
  apply forallb_forall. intros l Hl.
  rewrite forallb_forall in Hclean. specialize (Hclean l Hl).
  unfold clean_line in Hclean. apply andb_true_iff in Hclean. tauto.
Qed.

Lemma clean_text_is_unchanged_witness :
  filter_alsa_jack_errors (str_join [10%N] [str_of "ready"; []; str_of "listening"])
  = str_join [10%N] [str_of "ready"; []; str_of "listening"].
Proof.
  apply (clean_text_is_unchanged [str_of "ready"; []; str_of "listening"]).
  - reflexivity.
  - intros ls' E.
    assert (Hl : last (ls' ++ [[]]) (str_of "x") = []) by apply last_last.
    rewrite <- E in Hl. cbn in Hl. discriminate.
Defined.

(** ** Capturing without waiting for speech *)





(** ** Push mode: the timeout and a zero sample rate *)

Lemma callback_returns (ext : Externals) (self : AudioInput ext) (f : bytes) :
  exists flag v b,
    _audio_callback ext f self = (Ret flag, set_buffer b (set_vad_of v self)).
Proof.
  unfold _audio_callback, bind, get. destruct (stop_requested self) eqn:Hstop.
  - exists paComplete, (vad self), (buffer self). destruct self; reflexivity.
  - rewrite on_vad_is_speech. cbn [fst snd].
    destruct (verdict ext (vad self) f || _)%bool;
      eexists paContinue, _, _; cbn; reflexivity.
Qed.

Lemma deliver_returns (ext : Externals) (arrivals : list bytes) :
  forall self : AudioInput ext,
    exists v b, deliver ext arrivals self = (Ret tt, set_buffer b (set_vad_of v self)).
Proof.
  induction arrivals as [|f rest IH]; intros self.
  - exists (vad self), (buffer self). destruct self; reflexivity.
  - cbn [deliver]. unfold bind.
    destruct (callback_returns ext self f) as (flag & v & b & Hcb). rewrite Hcb.
    destruct (IH (set_buffer b (set_vad_of v self))) as (v' & b' & Hrun).
    rewrite Hrun. exists v', b'. reflexivity.
Qed.

Lemma vad_loop_returns (ext : Externals) (max_frames : option Z) (start_time : Q)
    (ticks : list push_tick) :
  forall (sd : bool) (sil : Z) (self : AudioInput ext),
    sample_rate (config self) <> 0 ->
    Exists (fun tk => Qgtb (push_now tk - start_time) (timeout (config self)) = true)
           ticks ->
    exists self', vad_loop ext max_frames start_time sd sil ticks self = (Ret tt, self').
Proof.
  induction ticks as [|tk rest IH]; intros sd sil self Hrate Hlate.
  - inversion Hlate.
  - cbn [vad_loop]. unfold bind at 1.
    destruct (deliver_returns ext (push_arrivals tk) self) as (v1 & b1 & Hdel).
    rewrite Hdel. unfold bind at 1. unfold get at 1.
    set (s1 := set_buffer b1 (set_vad_of v1 self)).
    change (config s1) with (config self).
    destruct (Qgtb (push_now tk - start_time) (timeout (config self))) eqn:Ht;
      [eexists; reflexivity|].
    assert (Hrest : Exists (fun tk => Qgtb (push_now tk - start_time)
                                        (timeout (config self)) = true) rest)
      by (inversion Hlate; [congruence | assumption]).
    destruct (at_frame_limit max_frames (buffer s1)); [eexists; reflexivity|].
    assert (Hgo : forall v sd' sil',
              exists self',
                vad_loop ext max_frames start_time sd' sil' rest (set_vad_of v s1)
                = (Ret tt, self'))
      by (intros v sd' sil'; apply IH; [exact Hrate | exact Hrest]).
    assert (Hs1 : s1 = set_vad_of (vad s1) s1) by reflexivity.
    assert (Hend : forall v sd' sil',
              exists self',
                bind (call (py_div (inject_Z (sil' * chunk_size (config self)))
                                   (inject_Z (sample_rate (config self)))))
                  (fun silence_secs =>
                     if Qgtb silence_secs (speech_pad_end (config self)) then ret tt
                     else vad_loop ext max_frames start_time sd' sil' rest)
                  (set_vad_of v s1) = (Ret tt, self')).
    { intros v sd' sil'. rewrite py_div_nonzero by exact Hrate.
      unfold bind, call.
      match goal with
      | |- context [if ?c then ret tt else _] => destruct c
      end; [eexists; reflexivity | apply Hgo]. }
    unfold bind at 1.
    destruct (negb sd && (0 <? Z.of_nat (length (buffer s1)))) eqn:Hcheck.
    + unfold bind at 1. rewrite on_vad_is_speech. cbn [ret].
      set (v2 := vad_after ext (vad s1) (last_frame (buffer s1))).
      destruct (if verdict ext (vad s1) (last_frame (buffer s1)) then true else sd).
      * unfold bind at 1. destruct (0 <? Z.of_nat (length (buffer s1))).
        -- unfold bind at 1.
           change (on_vad ext (is_speech ext (last_frame (buffer s1)) None) (set_vad_of v2 s1))
             with (on_vad ext (is_speech ext (last_frame (buffer (set_vad_of v2 s1))) None)
                     (set_vad_of v2 s1)).
           rewrite on_vad_is_speech. cbn [ret]. apply Hend.
        -- cbn [ret]. apply Hend.
      * apply Hgo.
    + cbn [ret]. destruct sd.
      * unfold bind at 1. destruct (0 <? Z.of_nat (length (buffer s1))).
        -- unfold bind at 1. rewrite on_vad_is_speech. cbn [ret]. apply Hend.
        -- cbn [ret]. rewrite Hs1. apply Hend.
      * rewrite Hs1. apply Hgo.
Qed.

(** X25: with a non-zero sample rate a push capture does not raise and
    does not outlast the timeout: as soon as a poll reads the clock past
    [timeout], [_capture_with_vad] returns what the buffer holds. *)
Theorem push_capture_returns_by_timeout (ext : Externals) (self : AudioInput ext)
    (max_frames : option Z) (wait_for_speech : bool) (start_time : Q)
    (ticks : list push_tick) :
  sample_rate (config self) <> 0 ->
  Exists (fun tk => Qgtb (push_now tk - start_time) (timeout (config self)) = true)
         ticks ->
  exists r self',
    _capture_with_vad ext max_frames wait_for_speech start_time ticks self
    = (Ret r, self').
Proof.
  intros Hrate Hlate. unfold _capture_with_vad, bind.
  destruct (vad_loop_returns ext max_frames start_time ticks (negb wait_for_speech) 0
              self Hrate Hlate) as (self1 & Hloop).
  rewrite Hloop. unfold get. destruct (buffer self1); eexists _, _; reflexivity.
Qed.

Lemma push_capture_returns_by_timeout_witness :
  exists r self',
    _capture_with_vad ext0 None true 0
      [mkPush [quiet_short] 0; mkPush [loud_short] 100]
      (open_session ext0 short_push_config)
    = (Ret r, self').
Proof.
  apply (push_capture_returns_by_timeout ext0 (open_session ext0 short_push_config)
           None true 0 [mkPush [quiet_short] 0; mkPush [loud_short] 100]).
  - vm_compute. discriminate.
  - apply Exists_cons_tl, Exists_cons_hd. vm_compute. reflexivity.
Defined.

(** X26: with a sample rate of 0 a push capture that does not wait for
    speech raises [ZeroDivisionError] at its first poll, unless that poll
    is already past the timeout: the silence length is computed outside
    any [try].  (The pull loop catches the same error and returns.) *)
Theorem push_capture_zero_rate_raises (ext : Externals) (self : AudioInput ext)
    (start_time : Q) (tk : push_tick) (rest : list push_tick) :
  sample_rate (config self) = 0 ->
  Qgtb (push_now tk - start_time) (timeout (config self)) = false ->
  fst (_capture_with_vad ext None false start_time (tk :: rest) self)
  = Raise ZeroDivisionError.
Proof.
  intros Hrate Ht. unfold _capture_with_vad. unfold bind at 1.
  cbn [vad_loop negb]. unfold bind at 1.
  destruct (deliver_returns ext (push_arrivals tk) self) as (v1 & b1 & Hdel).
  rewrite Hdel. unfold bind at 1. unfold get at 1.
  set (s1 := set_buffer b1 (set_vad_of v1 self)).
  change (config s1) with (config self). rewrite Ht, Hrate.
  cbn [at_frame_limit negb andb ret]. unfold bind at 1. unfold bind at 1.
  destruct (0 <? Z.of_nat (length (buffer s1))).
  - unfold ret at 1. cbv beta iota. unfold bind at 1. rewrite on_vad_is_speech.
    reflexivity.
  - reflexivity.
Qed.

Lemma push_capture_zero_rate_raises_witness :
  fst (_capture_with_vad ext0 None false 0
         [mkPush [quiet_short] 0; mkPush [loud_short] 100]
         (AudioInput_init ext0 false true
            {| sample_rate := 0; channels := 1; format := "int16"; chunk_size := 125;
               silence_threshold := 50; dynamic_silence := true;
               min_speech_duration := 0.05; speech_pad_start := 0.1;
               speech_pad_end := 0.03125; device_index := None; timeout := 2;
               vad_enabled := true; vad_mode := 1; vad_frame_ms := 30 |}))
  = Raise ZeroDivisionError.
Proof.
  apply (push_capture_zero_rate_raises ext0
           (AudioInput_init ext0 false true
              {| sample_rate := 0; channels := 1; format := "int16"; chunk_size := 125;
                 silence_threshold := 50; dynamic_silence := true;
                 min_speech_duration := 0.05; speech_pad_start := 0.1;
                 speech_pad_end := 0.03125; device_index := None; timeout := 2;
                 vad_enabled := true; vad_mode := 1; vad_frame_ms := 30 |})
           0 (mkPush [quiet_short] 0) [mkPush [loud_short] 100]).
  - reflexivity.
  - vm_compute. reflexivity.
Defined.

(** ** After the session was stopped, and without PyAudio *)

Lemma deliver_discards_when_stopped (ext : Externals) (arrivals : list bytes) :
  forall self : AudioInput ext,
    stop_requested self = true ->
    deliver ext arrivals self = (Ret tt, self).
Proof.
  induction arrivals as [|f rest IH]; intros self Hstop; [reflexivity|].
  cbn [deliver]. unfold bind at 1. unfold _audio_callback, bind, get.
  rewrite Hstop. cbn [ret]. apply IH. exact Hstop.
Qed.

(** X27: frames that PortAudio still hands to the callback after
    [stop_stream] are discarded: whatever the session was before, once
    [stop_stream] has run the callback neither buffers a frame nor
    consults the detector, so the object stays exactly as [stop_stream]
    left it. *)
Theorem callbacks_after_stop_are_discarded (ext : Externals) (s : Sys ext)
    (arrivals : list bytes) :
  let stopped := fst (snd (stop_stream ext s)) in
  deliver ext arrivals stopped = (Ret tt, stopped).
Proof.
  cbv zeta. destruct (stop_stream_closes ext s) as (s' & Hrun & _ & _ & _ & Hstop).
  rewrite Hrun. cbn [fst snd]. apply deliver_discards_when_stopped. exact Hstop.
Qed.

(** X28: when PyAudio could not be imported the object degrades quietly:
    [start_stream] returns [False], [capture_audio] returns [None] and
    [list_devices] returns the empty list, none of them raises, makes a
    PortAudio call, or changes the object. *)
Theorem without_pyaudio_nothing_happens (ext : Externals) (self : AudioInput ext)
    (w : World) (duration : option Q) (wait_for_speech : bool) (feed : Feed)
    (host : Host) :
  pyaudio self = false ->
  stream self = None ->
  start_stream ext (self, w) = (Ret false, (self, w)) /\
  capture_audio ext duration wait_for_speech feed (self, w) = (Ret None, (self, w)) /\
  list_devices ext host (self, w) = (Ret [], (self, w)).
Proof.
  intros Hpa Hst.
  assert (Hstart : start_stream ext (self, w) = (Ret false, (self, w))).
  { unfold start_stream.
    change (bind (on_self ext get) ?k (self, w)) with (k self (self, w)). cbv beta.
    rewrite Hpa. reflexivity. }
  split; [exact Hstart|]. split.
  - unfold capture_audio.
    change (bind (on_self ext get) ?k (self, w)) with (k self (self, w)). cbv beta.
    rewrite Hst. unfold bind at 1. rewrite Hstart. reflexivity.
  - unfold list_devices.
    change (bind (on_self ext get) ?k (self, w)) with (k self (self, w)). cbv beta.
    rewrite Hpa. reflexivity.
Qed.

Lemma without_pyaudio_nothing_happens_witness :
  start_stream ext0 (AudioInput_init ext0 false false pull_config, world0)
    = (Ret false, (AudioInput_init ext0 false false pull_config, world0)) /\
  capture_audio ext0 (Some 1%Q) true (pull_feed onset_frames)
      (AudioInput_init ext0 false false pull_config, world0)
    = (Ret None, (AudioInput_init ext0 false false pull_config, world0)) /\
  list_devices ext0 host3 (AudioInput_init ext0 false false pull_config, world0)
    = (Ret [], (AudioInput_init ext0 false false pull_config, world0)).
Proof.
  apply (without_pyaudio_nothing_happens ext0
           (AudioInput_init ext0 false false pull_config) world0 (Some 1%Q) true
           (pull_feed onset_frames) host3); reflexivity.
Defined.
